(** * Travel-spot bookkeeping application ([app.py]): model and properties

    The Flask view functions of [app.py] are embedded as functions over an
    explicit world: the two tables of the SQLite database, the login
    session and the queue of flashed notices.  A view either returns a
    response, aborts with an HTTP status, or lets a Python exception
    escape.

    Conventions.
    - A Python [str] is a [string]; one [ascii] stands for one character
      (a code point below 256).  The notices passed to [flash] are kept as
      the bytes of their source literals; they are only queued, never
      inspected.
    - Integers are mathematical ([Z]).  An id taken from a URL can be any
      natural number; the rows of a table have ids of 64 bits, and the
      table that runs out of them is outside the model.
    - A Python [float] is a binary64 number ([PrimFloat.float]). *)

From Stdlib Require Import ZArith Floats Ascii String.
From stdpp Require Import gmap strings list.

#[local] Set Warnings "-inexact-float".
#[local] Open Scope Z_scope.

(** ** Characters *)

Definition code (c : ascii) : Z := Z.of_N (N_of_ascii c).

Definition is_digit (c : ascii) : bool :=
  (48 <=? code c) && (code c <=? 57).

(** ASCII lower-casing: only [A]..[Z] move. *)
Definition to_lower (c : ascii) : ascii :=
  if (65 <=? code c) && (code c <=? 90)
  then ascii_of_N (Z.to_N (code c + 32)) else c.

(** ** The builtin [float(str)]

    The view functions call [float] on form text.  CPython reads the text
    in four steps: a string that is not pure ASCII has its Unicode spaces
    replaced by blanks, surrounding white space is removed, underscores
    that separate two digits are dropped, and what remains must be, as a
    whole, a decimal literal or one of [inf], [infinity], [nan] with an
    optional sign.  The decimal value is rounded to the nearest binary64
    number, ties to even; too large a value gives an infinity.  [None]
    stands for the [ValueError] raised on any other text. *)

Module PyFloat.

(** [Py_ISSPACE]: blank, tab, line feed, vertical tab, form feed,
    carriage return. *)
Definition is_space (c : ascii) : bool :=
  (code c =? 32) || ((9 <=? code c) && (code c <=? 13)).

(** Among the characters from 127 up, the Unicode spaces are
    next-line (133) and no-break space (160). *)
Definition fold_spaces (s : list ascii) : list ascii :=
  if forallb (fun c => code c <? 128) s then s
  else map (fun c => if (code c =? 133) || (code c =? 160)
                     then " "%char else c) s.

Fixpoint lstrip (s : list ascii) : list ascii :=
  match s with
  | c :: s' => if is_space c then lstrip s' else s
  | [] => []
  end.

Definition strip (s : list ascii) : list ascii :=
  rev (lstrip (rev (lstrip s))).

(** An underscore is accepted only between two digits; [prev] is the
    character before [s]. *)
Fixpoint drop_underscores (prev : ascii) (s : list ascii)
  : option (list ascii) :=
  match s with
  | [] => if Ascii.eqb prev "_" then None else Some []
  | c :: s' =>
      if Ascii.eqb c "_" then
        if is_digit prev then drop_underscores c s' else None
      else if Ascii.eqb prev "_" && negb (is_digit c) then None
      else cons c <$> drop_underscores c s'
  end.

(** Reads a run of digits: the number read so far, how many digits were
    read, and the text left. *)
Fixpoint digits (acc n : Z) (s : list ascii) : Z * Z * list ascii :=
  match s with
  | c :: s' =>
      if is_digit c then digits (10 * acc + (code c - 48)) (n + 1) s'
      else (acc, n, s)
  | [] => (acc, n, s)
  end.

Definition sign (s : list ascii) : bool * list ascii :=
  match s with
  | c :: s' =>
      if Ascii.eqb c "-" then (true, s')
      else if Ascii.eqb c "+" then (false, s')
      else (false, s)
  | [] => (false, s)
  end.

(** An exponent part is read only when it has at least one digit;
    otherwise the letter is left in the text. *)
Definition exponent (s : list ascii) : Z * list ascii :=
  match s with
  | c :: s' =>
      if Ascii.eqb (to_lower c) "e" then
        let '(neg, s1) := sign s' in
        let '(e, n, s2) := digits 0 0 s1 in
        if n =? 0 then (0, s) else (if neg then - e else e, s2)
      else (0, s)
  | [] => (0, s)
  end.

(** The binary64 number nearest to [m * 10 ^ e], for [0 <= m]. *)
Definition round_decimal (neg : bool) (m e : Z) : spec_float :=
  if m =? 0 then S754_zero neg
  else if 0 <=? e then
    binary_normalize prec emax
      (if neg then - (m * 10 ^ e) else m * 10 ^ e) 0 neg
  else
    let '(q, e', l) := SFdiv_core_binary prec emax m 0 (10 ^ (- e)) 0 in
    binary_round_aux prec emax neg q e' l.

Definition strtod (s : list ascii) : option (spec_float * list ascii) :=
  let '(neg, s0) := sign s in
  let '(ip, ni, s1) := digits 0 0 s0 in
  let '(m, nf, s2) :=
    match s1 with
    | c :: s1' => if Ascii.eqb c "." then digits ip 0 s1' else (ip, 0, s1)
    | [] => (ip, 0, s1)
    end in
  if ni + nf =? 0 then None
  else
    let '(e, s3) := exponent s2 in
    Some (round_decimal neg m (e - nf), s3).

Definition starts_with (p : string) (s : list ascii) : bool :=
  String.eqb (string_of_list_ascii (take (String.length p) s)) p.

Definition parse_inf_or_nan (s : list ascii)
  : option (spec_float * list ascii) :=
  let '(neg, s0) := sign s in
  let low := map to_lower s0 in
  if starts_with "infinity" low then Some (S754_infinity neg, drop 8 s0)
  else if starts_with "inf" low then Some (S754_infinity neg, drop 3 s0)
  else if starts_with "nan" low then Some (S754_nan, drop 3 s0)
  else None.

Definition float_of_str (s : string) : option float :=
  match
    drop_underscores "000" (strip (fold_spaces (list_ascii_of_string s)))
  with
  | None => None
  | Some t =>
      match
        match strtod t with
        | Some r => Some r
        | None => parse_inf_or_nan t
        end
      with
      | Some (x, []) => Some (SF2Prim x)
      | _ => None
      end
  end.

End PyFloat.

Definition py_float : string -> option float := PyFloat.float_of_str.

(** ** The SQLite engine, as far as the queries of [app.py] go *)

Module Sqlite.

(** Two characters agree under [LIKE] when they are equal up to the
    case of ASCII letters. *)
Definition char_eq_nocase (c c2 : ascii) : bool :=
  Ascii.eqb (to_lower c) (to_lower c2).

(** [pattern_compare p t]: the text [t] matches the pattern [p], both
    free of NUL.  A percent sign stands for any run of characters, an
    underscore for exactly one; no escape character is in force. *)
Fixpoint pattern_compare (p : list ascii) : list ascii -> bool :=
  match p with
  | [] => fun t => match t with [] => true | _ :: _ => false end
  | c :: p' =>
      if Ascii.eqb c "%" then
        fix star (t : list ascii) : bool :=
          pattern_compare p' t ||
          match t with [] => false | _ :: t' => star t' end
      else if Ascii.eqb c "_" then
        fun t => match t with [] => false | _ :: t' => pattern_compare p' t' end
      else
        fun t =>
          match t with
          | [] => false
          | c2 :: t' => char_eq_nocase c c2 && pattern_compare p' t'
          end
  end.

(** A text as the C code of the engine reads it: up to its first NUL. *)
Fixpoint c_string (s : list ascii) : list ascii :=
  match s with
  | [] => []
  | c :: s' => if Ascii.eqb c "000" then [] else c :: c_string s'
  end.

(** [t LIKE p]: pattern and text are both read as C strings. *)
Definition like (p t : list ascii) : bool :=
  pattern_compare (c_string p) (c_string t).

(** The size in bytes of a text in the database encoding (UTF-8): a
    character from 128 up takes two bytes. *)
Definition text_bytes (s : string) : Z :=
  foldr (fun c n => (if code c <? 128 then 1 else 2) + n) 0
        (list_ascii_of_string s).

(** [SQLITE_MAX_LIKE_PATTERN_LENGTH]: a longer pattern is refused with
    an error. *)
Definition like_pattern_limit : Z := 50000.

(** The integers that the driver can bind to a parameter of a
    statement, and that a row id can be: those of 64 bits. *)
Definition is_int64 (n : Z) : bool :=
  (- 2 ^ 63 <=? n) && (n <? 2 ^ 63).

(** What a [FLOAT] column gives back for a value written to it: a NaN
    is stored as [NULL], and a negative zero comes back as zero. *)
Definition real (x : float) : option float :=
  if PrimFloat.is_nan x then None
  else if PrimFloat.is_zero x then Some PrimFloat.zero
  else Some x.

(** The row id given to a row inserted without one: one more than the
    largest in the table, or [1] in an empty table. *)
Definition next_rowid {A} (t : gmap Z A) : Z :=
  match (map_to_list t).*1 with
  | [] => 1
  | k :: ks => 1 + foldr Z.max k ks
  end.

End Sqlite.

(** [column.contains(other)] of SQLAlchemy: the SQL expression
    [column LIKE '%' || other || '%'], which is not true on [NULL].
    This is the answer of the engine for a pattern that it accepts, one
    of at most [Sqlite.like_pattern_limit] bytes. *)
Definition contains (column : option string) (other : string) : bool :=
  match column with
  | Some c =>
      Sqlite.like (list_ascii_of_string ("%" +:+ other +:+ "%"))
                  (list_ascii_of_string c)
  | None => false
  end.

(** ** Data model *)

(** A row of the [user] table; the primary key [id] is the key of the
    table. *)
Record User := {
  username : string;
  password : string              (* the stored hash *)
}.

(** A row of the [spot] table, keyed by its primary key [id].  Only
    [name] is declared [nullable=False]. *)
Record Spot := {
  name : string;
  city : option string;
  comment : option string;
  lat : option float;
  lng : option float;
  user_id : option Z
}.

Record Database := {
  user_table : gmap Z User;
  spot_table : gmap Z Spot
}.

(** What a request can see and change: the committed database, the user
    id kept in the login session, and the notices queued by [flash]. *)
Record World := {
  db : Database;
  session_user_id : option Z;
  flashes : list string
}.

Inductive Method := GET | POST.

Record Request := {
  method : Method;
  args : gmap string string;     (* request.args, the query string *)
  form : gmap string string      (* request.form *)
}.

(** The rows handed to a template, each with its id. *)
Inductive Page :=
  | index_html (spots : list (Z * Spot)) (city : option string)
  | login_html
  | add_edit_spot_html (spot : option (Z * Spot))
  | map_html (spots : list (Z * Spot)).

(** [LoginRedirect] is what [login_manager.unauthorized()] returns: a
    redirect to the login view that carries the requested URL. *)
Inductive Response :=
  | Render (page : Page)
  | Redirect (location : string)
  | LoginRedirect.

(** Exceptions that no view catches. *)
Inductive Exception :=
  | ValueError                   (* float() on text that is no number *)
  | HashError                    (* raised inside check_password_hash *)
  | OverflowError.               (* an integer that sqlite3 cannot bind *)

(** How a view ends: with a value, with an HTTP error raised by
    [abort] (status 400, 404), or with an exception that escapes. *)
Inductive Outcome (A : Type) :=
  | Done (a : A)
  | Abort (status : Z)
  | Raise (e : Exception).
Arguments Done {A} a.
Arguments Abort {A} status.
Arguments Raise {A} e.

(** ** Views as state transformers *)

Definition View (A : Type) : Type := World -> Outcome A * World.

Definition ret {A} (a : A) : View A := fun w => (Done a, w).

Definition bind {A B} (m : View A) (k : A -> View B) : View B :=
  fun w =>
    match m w with
    | (Done a, w') => k a w'
    | (Abort n, w') => (Abort n, w')
    | (Raise e, w') => (Raise e, w')
    end.

Declare Scope view_scope.
Delimit Scope view_scope with view.
Notation "x <- m ;; k" := (bind m (fun x => k))
  (at level 100, m at next level, right associativity) : view_scope.
Notation "m ;; k" := (bind m (fun _ => k))
  (at level 100, right associativity) : view_scope.

(** A computation that does not touch the world. *)
Definition lift {A} (o : Outcome A) : View A := fun w => (o, w).

Definition abort {A} (status : Z) : View A := lift (Abort status).

(** The world with one more notice queued. *)
Definition add_flash (message : string) (w : World) : World :=
  {| db := db w; session_user_id := session_user_id w;
     flashes := flashes w ++ [message] |}.

(** The world with the [spot] table replaced. *)
Definition set_spot_table (t : gmap Z Spot) (w : World) : World :=
  {| db := {| user_table := user_table (db w); spot_table := t |};
     session_user_id := session_user_id w;
     flashes := flashes w |}.

(** The world with the session bound to a user. *)
Definition set_session (uid : Z) (w : World) : World :=
  {| db := db w; session_user_id := Some uid; flashes := flashes w |}.

(** [flash(message)] *)
Definition flash (message : string) : View unit :=
  fun w => (Done tt, add_flash message w).

(** [db.session.commit()] of the pending change, given as the new
    content of the [spot] table. *)
Definition commit_spots (t : gmap Z Spot) : View unit :=
  fun w => (Done tt, set_spot_table t w).

Definition spots : View (gmap Z Spot) := fun w => (Done (spot_table (db w)), w).

(** [url_for] on the routes of the application. *)
Definition url_for_index : string := "/".
Definition url_for_login : string := "/login".

(** The notices, in the order of the source. *)
Definition msg_login_failed : string := "帳號或密碼錯誤".
Definition msg_spot_added : string := "新增成功".
Definition msg_edit_forbidden : string := "沒有權限編輯此景點".
Definition msg_spot_updated : string := "更新成功".
Definition msg_delete_forbidden : string := "沒有權限刪除此景點".
Definition msg_spot_deleted : string := "刪除成功".
(** Flask-Login's default [login_message]. *)
Definition msg_login_required : string := "Please log in to access this page.".

(** [load_user]: the user whose id the session holds, if that row
    exists. *)
Definition current_user (w : World) : option Z :=
  match session_user_id w with
  | Some uid =>
      match user_table (db w) !! uid with
      | Some _ => Some uid
      | None => None
      end
  | None => None
  end.

(** [@login_required]: an anonymous caller is sent to the login view
    with the default notice; otherwise the view runs with
    [current_user.id]. *)
Definition login_required (view : Z -> View Response) : View Response :=
  fun w =>
    match current_user w with
    | Some uid => view uid w
    | None => (flash msg_login_required ;; ret LoginRedirect)%view w
    end.

(** ** Request data and queries *)

(** [request.form[key]]: a missing key is a [BadRequestKeyError], which
    Flask answers with status 400. *)
Definition form_item (rq : Request) (key : string) : View string :=
  match form rq !! key with
  | Some v => ret v
  | None => abort 400
  end.

(** Python truth of an optional string: [None] and the empty string are
    false; a true one is given back. *)
Definition nonempty (v : option string) : option string :=
  match v with
  | Some s => if String.eqb s "" then None else Some s
  | None => None
  end.

(** [float(v) if v else None] *)
Definition float_or_none (v : option string) : Outcome (option float) :=
  match nonempty v with
  | Some s =>
      match py_float s with
      | Some x => Done (Some x)
      | None => Raise ValueError
      end
  | None => Done None
  end.

(** [query.all()] over the rows that pass the filters.  The order of
    the rows is the engine's. *)
Definition all (keep : Spot -> bool) (t : gmap Z Spot) : list (Z * Spot) :=
  filter (fun r => Is_true (keep r.2)) (map_to_list t).

(** [filter_by(user_id=uid)] *)
Definition owned_by (uid : Z) (s : Spot) : bool :=
  bool_decide (user_id s = Some uid).

(** [Spot.query.get_or_404(id)].  The id goes to the driver as a
    parameter of the query, and the driver raises on an integer beyond
    64 bits; such an id has no row, a row id being of 64 bits. *)
Definition get_or_404 (id : Z) : View Spot :=
  fun w =>
    match spot_table (db w) !! id with
    | Some s => (Done s, w)
    | None =>
        if Sqlite.is_int64 id then (Abort 404, w)
        else (Raise OverflowError, w)
    end.

(** The row as the table keeps it. *)
Definition stored (s : Spot) : Spot :=
  {| name := name s; city := city s; comment := comment s;
     lat := lat s ≫= Sqlite.real; lng := lng s ≫= Sqlite.real;
     user_id := user_id s |}.

(** [db.session.add(spot); db.session.commit()] *)
Definition session_add (s : Spot) : View unit :=
  (t <- spots ;; commit_spots (<[Sqlite.next_rowid t := stored s]> t))%view.

(** [db.session.commit()] after assignments to the attributes of the
    row [id]. *)
Definition session_update (id : Z) (s : Spot) : View unit :=
  (t <- spots ;; commit_spots (<[id := stored s]> t))%view.

(** [db.session.delete(spot); db.session.commit()] *)
Definition session_delete (id : Z) : View unit :=
  (t <- spots ;; commit_spots (delete id t))%view.

(** [User.query.filter_by(username=username).first()]: of the matching
    rows, the one with the least id. *)
Definition first_user (uname : option string) (t : gmap Z User)
  : option (Z * User) :=
  foldr (fun r acc =>
           match acc with
           | Some r' => if r.1 <? r'.1 then Some r else acc
           | None => Some r
           end)
        None
        (filter (fun r => Some (username r.2) = uname) (map_to_list t)).

(** [login_user(user)] *)
Definition login_user (uid : Z) : View unit :=
  fun w => (Done tt, set_session uid w).

(** The password check of [werkzeug.security], which the application
    calls and does not define: on a stored hash and the submitted
    password it answers [True] or [False], or raises ([None]). *)
Class PasswordHasher := {
  check_password_hash : string -> option string -> option bool
}.

(** ** The views *)

#[local] Open Scope view_scope.

(** [GET /] *)
Definition index (rq : Request) : View Response :=
  login_required (fun uid =>
    let city_arg := args rq !! "city" in
    t <- spots ;;
    let query := owned_by uid in
    let query :=
      match nonempty city_arg with
      | Some c => fun s => query s && contains (city s) c
      | None => query
      end in
    ret (Render (index_html (all query t) city_arg))).

(** [GET, POST /login].  The one view open to anonymous callers. *)
Definition login `{PasswordHasher} (rq : Request) : View Response :=
  match method rq with
  | POST =>
      let v_username := form rq !! "username" in
      let v_password := form rq !! "password" in
      fun w =>
        match first_user v_username (user_table (db w)) with
        | Some (uid, user) =>
            match check_password_hash (password user) v_password with
            | Some true =>
                (login_user uid ;;
                 let next_page := args rq !! "next" in
                 ret (Redirect (default url_for_index
                                        (nonempty next_page)))) w
            | Some false =>
                (flash msg_login_failed ;; ret (Render login_html)) w
            | None => lift (Raise HashError) w
            end
        | None => (flash msg_login_failed ;; ret (Render login_html)) w
        end
  | GET => ret (Render login_html)
  end.

(** [GET, POST /add] *)
Definition add_spot (rq : Request) : View Response :=
  login_required (fun uid =>
    match method rq with
    | POST =>
        v_name <- form_item rq "name" ;;
        let v_city := form rq !! "city" in
        let v_comment := form rq !! "comment" in
        let v_lat := form rq !! "lat" in
        let v_lng := form rq !! "lng" in
        x_lat <- lift (float_or_none v_lat) ;;
        x_lng <- lift (float_or_none v_lng) ;;
        let spot := {| name := v_name; city := v_city; comment := v_comment;
                       lat := x_lat; lng := x_lng; user_id := Some uid |} in
        session_add spot ;;
        flash msg_spot_added ;;
        ret (Redirect url_for_index)
    | GET => ret (Render (add_edit_spot_html None))
    end).

(** [GET, POST /edit/<int:id>] *)
Definition edit_spot (id : Z) (rq : Request) : View Response :=
  login_required (fun uid =>
    spot <- get_or_404 id ;;
    if bool_decide (user_id spot ≠ Some uid) then
      flash msg_edit_forbidden ;;
      ret (Redirect url_for_index)
    else
      match method rq with
      | POST =>
          v_name <- form_item rq "name" ;;
          let v_city := form rq !! "city" in
          let v_comment := form rq !! "comment" in
          let v_lat := form rq !! "lat" in
          let v_lng := form rq !! "lng" in
          x_lat <- lift (float_or_none v_lat) ;;
          x_lng <- lift (float_or_none v_lng) ;;
          let spot := {| name := v_name; city := v_city;
                         comment := v_comment; lat := x_lat; lng := x_lng;
                         user_id := user_id spot |} in
          session_update id spot ;;
          flash msg_spot_updated ;;
          ret (Redirect url_for_index)
      | GET => ret (Render (add_edit_spot_html (Some (id, spot))))
      end).

(** [GET /delete/<int:id>].  The function itself does not look at the
    method; the route admits [GET] only. *)
Definition delete_spot (id : Z) (rq : Request) : View Response :=
  login_required (fun uid =>
    spot <- get_or_404 id ;;
    if bool_decide (user_id spot ≠ Some uid) then
      flash msg_delete_forbidden ;;
      ret (Redirect url_for_index)
    else
      session_delete id ;;
      flash msg_spot_deleted ;;
      ret (Redirect url_for_index)).

(** [GET /map] *)
Definition map_view (rq : Request) : View Response :=
  login_required (fun uid =>
    t <- spots ;;
    ret (Render (map_html (all (owned_by uid) t)))).

#[local] Close Scope view_scope.

(** ** Vocabulary of the statements *)

(** The row that [add_spot] and [edit_spot] build from the form, given
    the name read from it, the two parsed coordinates and the owner. *)
Definition form_spot (rq : Request) (v_name : string)
    (x_lat x_lng : option float) (owner : option Z) : Spot :=
  {| name := v_name; city := form rq !! "city";
     comment := form rq !! "comment";
     lat := x_lat; lng := x_lng; user_id := owner |}.

(** The submitted value is absent or the empty string. *)
Definition blank (v : option string) : Prop := v = None \/ v = Some "".

#[global] Instance blank_dec v : Decision (blank v).
Proof. unfold blank. apply _. Defined.

(** The submitted value is a non-empty text that [float] rejects. *)
Definition malformed (v : option string) : Prop :=
  exists s, v = Some s /\ s <> "" /\ py_float s = None.

(** A view that did not end with a response. *)
Definition failed {A} (o : Outcome A) : Prop :=
  match o with
  | Done _ => False
  | Abort _ | Raise _ => True
  end.

(** A float that is an infinity or a finite number other than zero. *)
Definition nonzero_number (x : float) : Prop :=
  match Prim2SF x with
  | S754_infinity _ | S754_finite _ _ _ => True
  | S754_zero _ | S754_nan => False
  end.

(** The two characters that [LIKE] reads as wildcards. *)
Definition wildcard (c : ascii) : bool :=
  Ascii.eqb c "%" || Ascii.eqb c "_".


(** The text has no NUL character. *)
Definition nul_free (s : string) : bool :=
  forallb (fun c => negb (Ascii.eqb c "000")) (list_ascii_of_string s).

(** The text up to its first NUL character. *)
Definition until_nul (s : string) : string :=
  string_of_list_ascii (Sqlite.c_string (list_ascii_of_string s)).

(** The pattern that [contains] builds from a filter is within the
    limit of the engine. *)
Definition pattern_fits (f : string) : Prop :=
  Sqlite.text_bytes ("%" +:+ f +:+ "%") <= Sqlite.like_pattern_limit.


(** The city filter in the words of the specification: the city
    contains the filter as a case-sensitive substring. *)
Fixpoint case_sensitive_substring (f c : string) : bool :=
  String.prefix f c ||
  match c with
  | EmptyString => false
  | String _ c' => case_sensitive_substring f c'
  end.

(** ** Sample data *)

(** A checker that keeps passwords in clear and raises when no
    password is submitted; it only serves to run [login] on examples. *)
Definition plain_hasher : PasswordHasher :=
  {| check_password_hash h p :=
       match p with
       | Some s => Some (String.eqb h s)
       | None => None
       end |}.

Definition alice : User := {| username := "alice"; password := "pw1" |}.
Definition bob : User := {| username := "bob"; password := "pw2" |}.

Definition tower : Spot :=
  {| name := "Tower"; city := Some "Taipei"; comment := None;
     lat := None; lng := None; user_id := Some 1 |}.

(** Two users; [alice] (id 1) owns the one spot (id 1). *)
Definition sample_db : Database :=
  {| user_table := {[ 1 := alice; 2 := bob ]};
     spot_table := {[ 1 := tower ]} |}.

Definition anonymous : World :=
  {| db := sample_db; session_user_id := None; flashes := [] |}.

Definition as_user (uid : Z) : World :=
  {| db := sample_db; session_user_id := Some uid; flashes := [] |}.

Definition request (m : Method) (a f : list (string * string)) : Request :=
  {| method := m; args := list_to_map a; form := list_to_map f |}.

(** ** Accounts: [register] and [logout] *)

(** The world with the [user] table replaced. *)
Definition set_user_table (t : gmap Z User) (w : World) : World :=
  {| db := {| user_table := t; spot_table := spot_table (db w) |};
     session_user_id := session_user_id w;
     flashes := flashes w |}.

(** The world with the session bound to no user. *)
Definition clear_session (w : World) : World :=
  {| db := db w; session_user_id := None; flashes := flashes w |}.

Definition users : View (gmap Z User) := fun w => (Done (user_table (db w)), w).

(** [db.session.commit()] of a pending change of the [user] table. *)
Definition commit_users (t : gmap Z User) : View unit :=
  fun w => (Done tt, set_user_table t w).

(** [logout_user()] *)
Definition logout_user : View unit :=
  fun w => (Done tt, clear_session w).

Definition url_for_register : string := "/register".

Definition msg_username_taken : string := "使用者名稱已存在".
Definition msg_registered : string := "註冊成功，請登入".

(** The hashing of [werkzeug.security], which draws a random salt: the
    salt drawn is the first argument, the password the second. *)
Class PasswordMaker := {
  generate_password_hash : string -> string -> string
}.

(** [User.set_password] *)
Definition set_password `{PasswordMaker} (salt : string) (u : User)
    (v_password : string) : User :=
  {| username := username u;
     password := generate_password_hash salt v_password |}.

(** [User.check_password] *)
Definition check_password `{PasswordHasher} (u : User)
    (v_password : option string) : option bool :=
  check_password_hash (password u) v_password.

(** What [register] answers: its own template or a redirect. *)
Inductive RegisterResponse :=
  | register_html
  | register_redirect (location : string).

#[local] Open Scope view_scope.

(** [GET, POST /register].  [salt] is the salt that the hashing draws
    during the request.  The row is built with its password unset and
    [set_password] fills it in. *)
Definition register `{PasswordMaker} (salt : string) (rq : Request)
  : View RegisterResponse :=
  match method rq with
  | POST =>
      v_username <- form_item rq "username" ;;
      v_password <- form_item rq "password" ;;
      t <- users ;;
      match first_user (Some v_username) t with
      | Some _ =>
          flash msg_username_taken ;;
          ret (register_redirect url_for_register)
      | None =>
          let new_user := {| username := v_username; password := "" |} in
          let new_user := set_password salt new_user v_password in
          commit_users (<[Sqlite.next_rowid t := new_user]> t) ;;
          flash msg_registered ;;
          ret (register_redirect url_for_login)
      end
  | GET => ret register_html
  end.

(** [GET /logout] *)
Definition logout (rq : Request) : View Response :=
  login_required (fun _ =>
    logout_user ;;
    ret (Redirect url_for_login)).

#[local] Close Scope view_scope.

(** No two rows of the [user] table carry the same name. *)
Definition unique_usernames (t : gmap Z User) : Prop :=
  forall i j u v,
    t !! i = Some u -> t !! j = Some v -> username u = username v -> i = j.

(** The hashing that goes with [plain_hasher]: the password in clear,
    whatever the salt. *)
Definition plain_maker : PasswordMaker :=
  {| generate_password_hash _ v_password := v_password |}.

(** A world whose session names a user that the table does not have. *)
Definition stale_session : World :=
  {| db := sample_db; session_user_id := Some 9; flashes := [] |}.

(** * Properties *)

(** ** Running a view *)

Lemma login_required_authenticated view w uid :
  current_user w = Some uid -> login_required view w = view uid w.
Proof. unfold login_required. by intros ->. Qed.

Lemma current_user_add_flash m w : current_user (add_flash m w) = current_user w.
Proof. reflexivity. Qed.

Lemma current_user_set_spot_table t w :
  current_user (set_spot_table t w) = current_user w.
Proof. reflexivity. Qed.

Lemma get_or_404_found id s w :
  spot_table (db w) !! id = Some s -> get_or_404 id w = (Done s, w).
Proof. unfold get_or_404. by intros ->. Qed.

Lemma get_or_404_missing id w :
  spot_table (db w) !! id = None ->
  Sqlite.is_int64 id = true ->
  get_or_404 id w = (Abort 404, w).
Proof. unfold get_or_404. by intros -> ->. Qed.

Lemma get_or_404_overflow id w :
  spot_table (db w) !! id = None ->
  Sqlite.is_int64 id = false ->
  get_or_404 id w = (Raise OverflowError, w).
Proof. unfold get_or_404. by intros -> ->. Qed.

(** Unfolds the sequencing of a view down to its steps. *)
Ltac run_view :=
  unfold bind, ret, lift, abort, flash, spots, commit_spots, session_add,
    session_update, session_delete, login_user, form_item; simpl.

(** ** Row ids *)

Lemma foldr_max_bound (k : Z) (ks : list Z) (x : Z) :
  x ∈ k :: ks -> x <= foldr Z.max k ks.
Proof.
  induction ks as [|k' ks IH]; simpl.
  - rewrite list_elem_of_singleton. lia.
  - rewrite !elem_of_cons. intros [->|[->|Hx]].
    + specialize (IH ltac:(left)). lia.
    + lia.
    + specialize (IH ltac:(by right)). lia.
Qed.

Lemma next_rowid_fresh {A} (t : gmap Z A) : t !! Sqlite.next_rowid t = None.
Proof.
  unfold Sqlite.next_rowid.
  destruct ((map_to_list t).*1) as [|k ks] eqn:Hl.
  - apply fmap_nil_inv in Hl. apply map_to_list_empty_iff in Hl. by subst.
  - apply eq_None_not_Some. intros [x Hx].
    apply elem_of_map_to_list in Hx.
    assert (Hin : 1 + foldr Z.max k ks ∈ (map_to_list t).*1).
    { apply list_elem_of_fmap. by exists (1 + foldr Z.max k ks, x). }
    rewrite Hl in Hin. apply foldr_max_bound in Hin. lia.
Qed.

(** ** The ownership gate *)

Lemma edit_spot_forbidden id rq w uid s :
  current_user w = Some uid ->
  spot_table (db w) !! id = Some s ->
  user_id s <> Some uid ->
  edit_spot id rq w
  = (Done (Redirect url_for_index), add_flash msg_edit_forbidden w).
Proof.
  intros Hu Hs Hne. unfold edit_spot.
  rewrite (login_required_authenticated _ _ _ Hu). run_view.
  rewrite (get_or_404_found _ _ _ Hs). by rewrite bool_decide_eq_true_2.
Qed.

Lemma delete_spot_forbidden id rq w uid s :
  current_user w = Some uid ->
  spot_table (db w) !! id = Some s ->
  user_id s <> Some uid ->
  delete_spot id rq w
  = (Done (Redirect url_for_index), add_flash msg_delete_forbidden w).
Proof.
  intros Hu Hs Hne. unfold delete_spot.
  rewrite (login_required_authenticated _ _ _ Hu). run_view.
  rewrite (get_or_404_found _ _ _ Hs). by rewrite bool_decide_eq_true_2.
Qed.



Lemma edit_spot_missing id rq w uid :
  current_user w = Some uid ->
  spot_table (db w) !! id = None ->
  Sqlite.is_int64 id = true ->
  edit_spot id rq w = (Abort 404, w).
Proof.
  intros Hu Hs Hid. unfold edit_spot.
  rewrite (login_required_authenticated _ _ _ Hu). run_view.
  by rewrite (get_or_404_missing _ _ Hs Hid).
Qed.

Lemma edit_spot_overflow id rq w uid :
  current_user w = Some uid ->
  spot_table (db w) !! id = None ->
  Sqlite.is_int64 id = false ->
  edit_spot id rq w = (Raise OverflowError, w).
Proof.
  intros Hu Hs Hid. unfold edit_spot.
  rewrite (login_required_authenticated _ _ _ Hu). run_view.
  by rewrite (get_or_404_overflow _ _ Hs Hid).
Qed.


(** ** Reading a coordinate *)

Lemma nonempty_blank v : blank v -> nonempty v = None.
Proof. by intros [->| ->]. Qed.

Lemma nonempty_Some s : s <> "" -> nonempty (Some s) = Some s.
Proof.
  intros Hs. unfold nonempty.
  destruct (String.eqb_spec s "") as [->|_]; [done|reflexivity].
Qed.

Lemma float_or_none_blank v : blank v -> float_or_none v = Done None.
Proof. intros Hv. unfold float_or_none. by rewrite (nonempty_blank _ Hv). Qed.

Lemma float_or_none_malformed v : malformed v -> float_or_none v = Raise ValueError.
Proof.
  intros (s & -> & Hs & Hf). unfold float_or_none.
  by rewrite (nonempty_Some _ Hs), Hf.
Qed.

Lemma py_float_nonempty s x : py_float s = Some x -> s <> "".
Proof. by intros Hf ->. Qed.

Lemma float_or_none_number s x :
  py_float s = Some x -> float_or_none (Some s) = Done (Some x).
Proof.
  intros Hf. unfold float_or_none.
  by rewrite (nonempty_Some _ (py_float_nonempty _ _ Hf)), Hf.
Qed.

(** ** Floats in a [FLOAT] column *)

Lemma SFeqb_refl_number x :
  match x with
  | S754_infinity _ | S754_finite _ _ _ => SFeqb x x = true
  | S754_zero _ | S754_nan => True
  end.
Proof.
  destruct x as [s|[]| |[] m e]; try done; unfold SFeqb; simpl;
    by rewrite Z.compare_refl, Pos.compare_cont_refl.
Qed.

(** Apart from NaN and the zeros, a float is read back as written. *)
Lemma real_nonzero_number x : nonzero_number x -> Sqlite.real x = Some x.
Proof.
  unfold nonzero_number, Sqlite.real, is_nan, is_zero.
  rewrite !FloatAxioms.eqb_spec.
  change (Prim2SF 0) with (S754_zero false).
  pose proof (SFeqb_refl_number (Prim2SF x)) as Hr.
  destruct (Prim2SF x) as [s|s| |s m e]; try done; intros _; rewrite Hr;
    by destruct s.
Qed.

Lemma above_is_nonzero_number (b x : float) m e :
  Prim2SF b = S754_finite false m e ->
  (b <? x)%float = true -> nonzero_number x.
Proof.
  intros Hb. rewrite FloatAxioms.ltb_spec, Hb. unfold nonzero_number, SFltb.
  by destruct (Prim2SF x) as [s|[]| |[] m' e'].
Qed.

Lemma below_is_nonzero_number (b x : float) m e :
  Prim2SF b = S754_finite true m e ->
  (x <? b)%float = true -> nonzero_number x.
Proof.
  intros Hb. rewrite FloatAxioms.ltb_spec, Hb. unfold nonzero_number, SFltb.
  by destruct (Prim2SF x) as [s|[]| |[] m' e'].
Qed.

(** A latitude beyond 90 degrees, or a longitude beyond 180, is kept
    by the table as it is. *)
Lemma real_out_of_range (b x : float) :
  b = 90%float \/ b = 180%float ->
  (b <? x)%float = true \/ (x <? - b)%float = true ->
  Sqlite.real x = Some x.
Proof.
  intros Hb Hx. apply real_nonzero_number.
  destruct Hb as [-> | ->], Hx as [Hx|Hx];
    (eapply above_is_nonzero_number; [|exact Hx]; vm_compute; reflexivity) ||
    (eapply below_is_nonzero_number; [|exact Hx]; vm_compute; reflexivity).
Qed.

(** ** Creating and updating *)

Lemma add_spot_missing_name rq w uid :
  current_user w = Some uid ->
  method rq = POST ->
  form rq !! "name" = None ->
  add_spot rq w = (Abort 400, w).
Proof.
  intros Hu Hm Hn. unfold add_spot.
  rewrite (login_required_authenticated _ _ _ Hu), Hm. run_view.
  by rewrite Hn.
Qed.

Lemma add_spot_raises_lat rq w uid v_name e :
  current_user w = Some uid ->
  method rq = POST ->
  form rq !! "name" = Some v_name ->
  float_or_none (form rq !! "lat") = Raise e ->
  add_spot rq w = (Raise e, w).
Proof.
  intros Hu Hm Hn Hx. unfold add_spot.
  rewrite (login_required_authenticated _ _ _ Hu), Hm. run_view.
  by rewrite Hn, Hx.
Qed.

Lemma add_spot_raises_lng rq w uid v_name x e :
  current_user w = Some uid ->
  method rq = POST ->
  form rq !! "name" = Some v_name ->
  float_or_none (form rq !! "lat") = Done x ->
  float_or_none (form rq !! "lng") = Raise e ->
  add_spot rq w = (Raise e, w).
Proof.
  intros Hu Hm Hn Hx Hy. unfold add_spot.
  rewrite (login_required_authenticated _ _ _ Hu), Hm. run_view.
  by rewrite Hn, Hx, Hy.
Qed.

Lemma add_spot_created rq w uid v_name x y :
  current_user w = Some uid ->
  method rq = POST ->
  form rq !! "name" = Some v_name ->
  float_or_none (form rq !! "lat") = Done x ->
  float_or_none (form rq !! "lng") = Done y ->
  add_spot rq w
  = (Done (Redirect url_for_index),
     add_flash msg_spot_added
       (set_spot_table
          (<[Sqlite.next_rowid (spot_table (db w))
             := stored (form_spot rq v_name x y (Some uid))]>
             (spot_table (db w))) w)).
Proof.
  intros Hu Hm Hn Hx Hy. unfold add_spot.
  rewrite (login_required_authenticated _ _ _ Hu), Hm. run_view.
  by rewrite Hn, Hx, Hy.
Qed.

Lemma edit_spot_raises_lat id rq w uid s v_name e :
  current_user w = Some uid ->
  spot_table (db w) !! id = Some s ->
  user_id s = Some uid ->
  method rq = POST ->
  form rq !! "name" = Some v_name ->
  float_or_none (form rq !! "lat") = Raise e ->
  edit_spot id rq w = (Raise e, w).
Proof.
  intros Hu Hs Ho Hm Hn Hx. unfold edit_spot.
  rewrite (login_required_authenticated _ _ _ Hu). run_view.
  rewrite (get_or_404_found _ _ _ Hs).
  rewrite bool_decide_eq_false_2 by (intros Hne; by apply Hne).
  by rewrite Hm, Hn, Hx.
Qed.

Lemma edit_spot_raises_lng id rq w uid s v_name x e :
  current_user w = Some uid ->
  spot_table (db w) !! id = Some s ->
  user_id s = Some uid ->
  method rq = POST ->
  form rq !! "name" = Some v_name ->
  float_or_none (form rq !! "lat") = Done x ->
  float_or_none (form rq !! "lng") = Raise e ->
  edit_spot id rq w = (Raise e, w).
Proof.
  intros Hu Hs Ho Hm Hn Hx Hy. unfold edit_spot.
  rewrite (login_required_authenticated _ _ _ Hu). run_view.
  rewrite (get_or_404_found _ _ _ Hs).
  rewrite bool_decide_eq_false_2 by (intros Hne; by apply Hne).
  by rewrite Hm, Hn, Hx, Hy.
Qed.

Lemma edit_spot_updated id rq w uid s v_name x y :
  current_user w = Some uid ->
  spot_table (db w) !! id = Some s ->
  user_id s = Some uid ->
  method rq = POST ->
  form rq !! "name" = Some v_name ->
  float_or_none (form rq !! "lat") = Done x ->
  float_or_none (form rq !! "lng") = Done y ->
  edit_spot id rq w
  = (Done (Redirect url_for_index),
     add_flash msg_spot_updated
       (set_spot_table
          (<[id := stored (form_spot rq v_name x y (Some uid))]>
             (spot_table (db w))) w)).
Proof.
  intros Hu Hs Ho Hm Hn Hx Hy. unfold edit_spot.
  rewrite (login_required_authenticated _ _ _ Hu). run_view.
  rewrite (get_or_404_found _ _ _ Hs).
  rewrite bool_decide_eq_false_2 by (intros Hne; by apply Hne).
  rewrite Hm, Hn, Hx, Hy. unfold form_spot. by rewrite Ho.
Qed.

Lemma edit_spot_get id rq w uid s :
  current_user w = Some uid ->
  spot_table (db w) !! id = Some s ->
  user_id s = Some uid ->
  method rq = GET ->
  edit_spot id rq w = (Done (Render (add_edit_spot_html (Some (id, s)))), w).
Proof.
  intros Hu Hs Ho Hm. unfold edit_spot.
  rewrite (login_required_authenticated _ _ _ Hu). run_view.
  rewrite (get_or_404_found _ _ _ Hs).
  rewrite bool_decide_eq_false_2 by (intros Hne; by apply Hne).
  by rewrite Hm.
Qed.

(** ** Listings *)

Lemma elem_of_all keep (t : gmap Z Spot) i s :
  (i, s) ∈ all keep t <-> t !! i = Some s /\ keep s = true.
Proof.
  unfold all. rewrite list_elem_of_filter, elem_of_map_to_list. simpl.
  rewrite Is_true_true. tauto.
Qed.


Lemma owned_by_true uid s : owned_by uid s = true <-> user_id s = Some uid.
Proof. unfold owned_by. apply bool_decide_eq_true. Qed.


Lemma index_filtered rq w uid f :
  current_user w = Some uid ->
  args rq !! "city" = Some f ->
  f <> "" ->
  index rq w
  = (Done (Render (index_html
                     (all (fun s => owned_by uid s && contains (city s) f)
                          (spot_table (db w)))
                     (Some f))), w).
Proof.
  intros Hu Hc Hf. unfold index.
  rewrite (login_required_authenticated _ _ _ Hu). run_view.
  by rewrite Hc, (nonempty_Some _ Hf).
Qed.


(** ** The [LIKE] operator *)

Lemma like_percent_unfold p t :
  Sqlite.pattern_compare ("%"%char :: p) t
  = Sqlite.pattern_compare p t ||
    match t with [] => false | _ :: t' => Sqlite.pattern_compare ("%"%char :: p) t' end.
Proof. by destruct t. Qed.

Lemma like_percent p t :
  Sqlite.pattern_compare ("%"%char :: p) t = true
  <-> exists pre rest, t = pre ++ rest /\ Sqlite.pattern_compare p rest = true.
Proof.
  induction t as [|a t IH]; rewrite like_percent_unfold, orb_true_iff.
  - split.
    + intros [H|H]; [|done]. by exists [], [].
    + intros (pre & rest & Ht & H). left.
      symmetry in Ht. apply app_eq_nil in Ht as [_ ->]. done.
  - rewrite IH. split.
    + intros [H|(pre & rest & -> & H)].
      * by exists [], (a :: t).
      * by exists (a :: pre), rest.
    + intros ([|b pre] & rest & Ht & H); simpl in Ht.
      * left. by subst.
      * right. injection Ht as -> ->. by exists pre, rest.
Qed.

Lemma like_percent_end t : Sqlite.pattern_compare ["%"%char] t = true.
Proof. apply like_percent. by exists t, []; rewrite app_nil_r. Qed.

Lemma like_literal_unfold c p t :
  wildcard c = false ->
  Sqlite.pattern_compare (c :: p) t
  = match t with
    | [] => false
    | c2 :: t' => Sqlite.char_eq_nocase c c2 && Sqlite.pattern_compare p t'
    end.
Proof.
  unfold wildcard. intros [H1 H2]%orb_false_iff. simpl.
  by rewrite H1, H2.
Qed.


Lemma list_ascii_of_string_app a b :
  list_ascii_of_string (a +:+ b)
  = list_ascii_of_string a ++ list_ascii_of_string b.
Proof. induction a as [|c a IH]; simpl; [done|by rewrite IH]. Qed.


Lemma c_string_nul_free s :
  forallb (fun c => negb (Ascii.eqb c "000")) s = true ->
  Sqlite.c_string s = s.
Proof.
  induction s as [|c s IH]; simpl; [done|].
  intros [Hc Hs]%andb_true_iff. apply negb_true_iff in Hc.
  by rewrite Hc, (IH Hs).
Qed.

Lemma list_ascii_of_until_nul c :
  list_ascii_of_string (until_nul c)
  = Sqlite.c_string (list_ascii_of_string c).
Proof. apply list_ascii_of_string_of_list_ascii. Qed.

(** With no NUL in the filter, the pattern is the filter between two
    percent signs, and the city is read up to its first NUL. *)
Lemma contains_pattern c f :
  nul_free f = true ->
  contains (Some c) f
  = Sqlite.pattern_compare
      ("%"%char :: list_ascii_of_string f ++ ["%"%char])
      (list_ascii_of_string (until_nul c)).
Proof.
  intros Hf. unfold contains, Sqlite.like.
  rewrite list_ascii_of_until_nul, !list_ascii_of_string_app.
  cbn [list_ascii_of_string app]. rewrite c_string_nul_free; [done|].
  unfold nul_free in Hf. cbn [forallb]. rewrite forallb_app, Hf. reflexivity.
Qed.








Lemma float_or_none_cases v :
  (exists x, float_or_none v = Done x) \/ float_or_none v = Raise ValueError.
Proof.
  unfold float_or_none. destruct (nonempty v) as [s|]; [|by left; eexists].
  destruct (py_float s); [by left; eexists|by right].
Qed.



(** ** Signing in *)

Section Login.
Context `{PasswordHasher}.

Lemma login_unknown_user rq w :
  method rq = POST ->
  first_user (form rq !! "username") (user_table (db w)) = None ->
  login rq w = (Done (Render login_html), add_flash msg_login_failed w).
Proof. intros Hm Hu. unfold login. by rewrite Hm, Hu. Qed.

Lemma login_wrong_password rq w uid user :
  method rq = POST ->
  first_user (form rq !! "username") (user_table (db w)) = Some (uid, user) ->
  check_password_hash (password user) (form rq !! "password") = Some false ->
  login rq w = (Done (Render login_html), add_flash msg_login_failed w).
Proof. intros Hm Hu Hp. unfold login. by rewrite Hm, Hu, Hp. Qed.

(** [login] reads the password with [form.get]: a form without the
    field hands [None] to the check, and a check that raises on it ends
    the view with that exception, but only when a user was found. *)
Lemma login_check_raises rq w uid user :
  method rq = POST ->
  first_user (form rq !! "username") (user_table (db w)) = Some (uid, user) ->
  check_password_hash (password user) (form rq !! "password") = None ->
  login rq w = (Raise HashError, w).
Proof. intros Hm Hu Hp. unfold login. by rewrite Hm, Hu, Hp. Qed.

End Login.

Lemma first_user_None uname (t : gmap Z User) :
  first_user uname t = None
  <-> forall i u, t !! i = Some u -> Some (username u) <> uname.
Proof.
  unfold first_user.
  set (l := filter _ _).
  assert (Hl : forall r, r ∈ l <-> Some (username r.2) = uname /\ t !! r.1 = Some r.2).
  { intros [i u]. unfold l. rewrite list_elem_of_filter, elem_of_map_to_list.
    done. }
  clearbody l. split.
  - intros Hf i u Hi Hn. destruct l as [|r l]; simpl in Hf.
    + by apply (not_elem_of_nil (i, u)), Hl.
    + by destruct (foldr _ _ l) as [r'|]; [destruct (r.1 <? r'.1)|].
  - intros Hn. destruct l as [|[i u] l]; [done|]. exfalso.
    destruct (proj1 (Hl (i, u)) ltac:(left)) as [Hu Hi].
    by apply (Hn i u).
Qed.

Lemma first_user_Some uname (t : gmap Z User) uid user :
  first_user uname t = Some (uid, user) ->
  t !! uid = Some user /\ Some (username user) = uname.
Proof.
  unfold first_user. set (l := filter _ _).
  assert (Hl : forall r, r ∈ l -> t !! r.1 = Some r.2 /\ Some (username r.2) = uname).
  { intros [i u]. unfold l. rewrite list_elem_of_filter, elem_of_map_to_list.
    tauto. }
  clearbody l. revert uid user Hl.
  induction l as [|r l IH]; intros uid user Hl Hf; simpl in Hf; [done|].
  destruct (foldr _ _ l) as [r'|] eqn:Hr.
  - destruct (r.1 <? r'.1).
    + injection Hf as ->. apply (Hl (uid, user)). by left.
    + apply IH; [|done]. intros r0 Hr0. apply Hl. by right.
  - injection Hf as ->. apply (Hl (uid, user)). by left.
Qed.

(** * The claims *)

(** C1.  A signed-in user who is not the owner of a spot is refused by
    both [/edit/<id>] and [/delete/<id>], whatever the method, query
    string and form of the request: the answer is a redirect to the
    listing with the permission notice queued, and carries nothing of
    the spot. *)
Theorem non_owner_is_refused id rq w uid s :
  current_user w = Some uid ->
  spot_table (db w) !! id = Some s ->
  user_id s <> Some uid ->
  edit_spot id rq w
  = (Done (Redirect url_for_index), add_flash msg_edit_forbidden w) /\
  delete_spot id rq w
  = (Done (Redirect url_for_index), add_flash msg_delete_forbidden w).
Proof.
  intros Hu Hs Hne. split.
  - by apply edit_spot_forbidden with uid s.
  - by apply delete_spot_forbidden with uid s.
Qed.

Lemma non_owner_is_refused_witness :
  let rq := request POST [] [("lat", "north")] in
  edit_spot 1 rq (as_user 2)
  = (Done (Redirect "/"), add_flash msg_edit_forbidden (as_user 2)) /\
  delete_spot 1 rq (as_user 2)
  = (Done (Redirect "/"), add_flash msg_delete_forbidden (as_user 2)).
Proof.
  apply (non_owner_is_refused 1 _ (as_user 2) 2 tower).
  - vm_compute. reflexivity.
  - vm_compute. reflexivity.
  - vm_compute. discriminate.
Defined.

(** C10.  A refused update or delete leaves the database as it was: the
    spot aimed at is still there with every field, and so is every other
    row. *)
Theorem refusal_leaves_store_unchanged id rq w uid s :
  current_user w = Some uid ->
  spot_table (db w) !! id = Some s ->
  user_id s <> Some uid ->
  db (edit_spot id rq w).2 = db w /\
  db (delete_spot id rq w).2 = db w /\
  spot_table (db (edit_spot id rq w).2) !! id = Some s /\
  spot_table (db (delete_spot id rq w).2) !! id = Some s.
Proof.
  intros Hu Hs Hne.
  rewrite (edit_spot_forbidden _ rq _ _ _ Hu Hs Hne).
  rewrite (delete_spot_forbidden _ rq _ _ _ Hu Hs Hne).
  by simpl.
Qed.

Lemma refusal_leaves_store_unchanged_witness :
  let rq := request POST [] [("name", "Mine"); ("lat", "1")] in
  db (edit_spot 1 rq (as_user 2)).2 = sample_db /\
  db (delete_spot 1 rq (as_user 2)).2 = sample_db /\
  spot_table (db (edit_spot 1 rq (as_user 2)).2) !! 1 = Some tower /\
  spot_table (db (delete_spot 1 rq (as_user 2)).2) !! 1 = Some tower.
Proof.
  apply (refusal_leaves_store_unchanged 1 _ (as_user 2) 2 tower).
  - vm_compute. reflexivity.
  - vm_compute. reflexivity.
  - vm_compute. discriminate.
Defined.




(** C2.  In create and in update, a coordinate that is absent or empty
    is stored as [None]; a non-empty text that [float] rejects makes the
    view end with the [ValueError] it raised, nothing being written or
    flashed. *)
Theorem coordinate_parsing rq w uid v_name :
  current_user w = Some uid ->
  method rq = POST ->
  form rq !! "name" = Some v_name ->
  let v_lat := form rq !! "lat" in
  let v_lng := form rq !! "lng" in
  let t := spot_table (db w) in
  (* create *)
  (malformed v_lat \/ malformed v_lng ->
   add_spot rq w = (Raise ValueError, w)) /\
  (blank v_lat -> forall y, float_or_none v_lng = Done y ->
   add_spot rq w
   = (Done (Redirect url_for_index),
      add_flash msg_spot_added
        (set_spot_table
           (<[Sqlite.next_rowid t
              := stored (form_spot rq v_name None y (Some uid))]> t) w))) /\
  (blank v_lng -> forall x, float_or_none v_lat = Done x ->
   add_spot rq w
   = (Done (Redirect url_for_index),
      add_flash msg_spot_added
        (set_spot_table
           (<[Sqlite.next_rowid t
              := stored (form_spot rq v_name x None (Some uid))]> t) w))) /\
  (* update, by the owner of an existing spot *)
  (forall id s, t !! id = Some s -> user_id s = Some uid ->
     (malformed v_lat \/ malformed v_lng ->
      edit_spot id rq w = (Raise ValueError, w)) /\
     (blank v_lat -> forall y, float_or_none v_lng = Done y ->
      edit_spot id rq w
      = (Done (Redirect url_for_index),
         add_flash msg_spot_updated
           (set_spot_table
              (<[id := stored (form_spot rq v_name None y (Some uid))]> t) w))) /\
     (blank v_lng -> forall x, float_or_none v_lat = Done x ->
      edit_spot id rq w
      = (Done (Redirect url_for_index),
         add_flash msg_spot_updated
           (set_spot_table
              (<[id := stored (form_spot rq v_name x None (Some uid))]> t) w)))).
Proof.
  intros Hu Hm Hn v_lat v_lng t.
  assert (Hbad : malformed v_lat \/ malformed v_lng ->
            float_or_none v_lat = Raise ValueError \/
            exists x, float_or_none v_lat = Done x /\
                      float_or_none v_lng = Raise ValueError).
  { intros [Hx|Hy]; [left; by apply float_or_none_malformed|].
    destruct (float_or_none_cases v_lat) as [[x Hx]|Hx]; [right|by left].
    exists x. split; [done|by apply float_or_none_malformed]. }
  repeat split.
  - intros [Hx|(x & Hx & Hy)]%Hbad.
    + by apply add_spot_raises_lat with uid v_name.
    + by apply add_spot_raises_lng with uid v_name x.
  - intros Hx%float_or_none_blank y Hy. by apply add_spot_created.
  - intros Hy%float_or_none_blank x Hx. by apply add_spot_created.
  - intros [Hx|(x & Hx & Hy)]%Hbad.
    + by apply edit_spot_raises_lat with uid s v_name.
    + by apply edit_spot_raises_lng with uid s v_name x.
  - intros Hx%float_or_none_blank y Hy. by apply edit_spot_updated with s.
  - intros Hy%float_or_none_blank x Hx. by apply edit_spot_updated with s.
Qed.

Lemma coordinate_parsing_witness :
  let rq1 := request POST [] [("name", "Tower"); ("lat", "north"); ("lng", "")] in
  let rq2 := request POST [] [("name", "Tower"); ("lat", "1"); ("lng", "12a")] in
  let rq3 := request POST [] [("name", "Tower"); ("lat", ""); ("lng", "")] in
  add_spot rq1 (as_user 1) = (Raise ValueError, as_user 1) /\
  edit_spot 1 rq2 (as_user 1) = (Raise ValueError, as_user 1) /\
  spot_table (db (add_spot rq3 (as_user 1)).2) !! 2
  = Some {| name := "Tower"; city := None; comment := None;
            lat := None; lng := None; user_id := Some 1 |}.
Proof.
  intros rq1 rq2 rq3.
  assert (Hu : current_user (as_user 1) = Some 1) by (vm_compute; reflexivity).
  pose proof (coordinate_parsing rq1 (as_user 1) 1 "Tower" Hu eq_refl eq_refl)
    as (H1 & _).
  pose proof (coordinate_parsing rq2 (as_user 1) 1 "Tower" Hu eq_refl eq_refl)
    as (_ & _ & _ & H2).
  pose proof (coordinate_parsing rq3 (as_user 1) 1 "Tower" Hu eq_refl eq_refl)
    as (_ & H3 & _).
  split; [|split].
  - apply H1. left. exists "north". split; [vm_compute; reflexivity|].
    split; [discriminate|vm_compute; reflexivity].
  - apply (H2 1 tower); [vm_compute; reflexivity|reflexivity|].
    right. exists "12a". split; [vm_compute; reflexivity|].
    split; [discriminate|vm_compute; reflexivity].
  - rewrite (H3 (or_intror eq_refl) None eq_refl).
    vm_compute. reflexivity.
Defined.

(** C4, as stated, fails: a create whose submitted name is the empty
    string ends with the redirect, and the table has a new row whose
    name is empty. *)
Lemma create_empty_name_counterexample :
  let rq := request POST [] [("name", "")] in
  let r := add_spot rq (as_user 1) in
  form rq !! "name" = Some "" /\
  ~ failed r.1 /\
  spot_table (db (as_user 1)) !! 2 = None /\
  spot_table (db r.2) !! 2
  = Some {| name := ""; city := None; comment := None;
            lat := None; lng := None; user_id := Some 1 |}.
Proof. vm_compute. repeat split; auto. Qed.

(** C4, amended.  Create fails, with status 400 and nothing added, when
    the form has no [name] field at all; a name submitted as the empty
    string is accepted and stored as it is. *)
Theorem create_requires_name_field rq w uid :
  current_user w = Some uid ->
  method rq = POST ->
  (form rq !! "name" = None -> add_spot rq w = (Abort 400, w)) /\
  (form rq !! "name" = Some "" ->
   forall x y,
     float_or_none (form rq !! "lat") = Done x ->
     float_or_none (form rq !! "lng") = Done y ->
     add_spot rq w
     = (Done (Redirect url_for_index),
        add_flash msg_spot_added
          (set_spot_table
             (<[Sqlite.next_rowid (spot_table (db w))
                := stored (form_spot rq "" x y (Some uid))]>
                (spot_table (db w))) w))).
Proof.
  intros Hu Hm. split.
  - intros Hn. by apply add_spot_missing_name with uid.
  - intros Hn x y Hx Hy. by apply add_spot_created.
Qed.

Lemma create_requires_name_field_witness :
  add_spot (request POST [] [("city", "Kyoto")]) (as_user 1)
  = (Abort 400, as_user 1) /\
  name <$> spot_table
             (db (add_spot (request POST [] [("name", "")]) (as_user 1)).2) !! 2
  = Some "".
Proof.
  assert (Hu : current_user (as_user 1) = Some 1) by (vm_compute; reflexivity).
  split.
  - apply (create_requires_name_field
             (request POST [] [("city", "Kyoto")]) (as_user 1) 1 Hu eq_refl).
    vm_compute. reflexivity.
  - pose proof (create_requires_name_field
                  (request POST [] [("name", "")]) (as_user 1) 1 Hu eq_refl)
      as [_ Hc].
    rewrite (Hc eq_refl None None eq_refl eq_refl).
    vm_compute. reflexivity.
Defined.

(** C5.  Neither create nor update compares a coordinate with a bound:
    whatever numbers [float] reads from the two fields are written, and
    a latitude beyond 90 degrees or a longitude beyond 180 is in the row
    afterwards.  With ["91"] submitted as latitude the update succeeds
    and the row holds the float [91.0], a value above 90. *)
Theorem coordinates_not_range_checked id rq w uid s v_name x y :
  current_user w = Some uid ->
  spot_table (db w) !! id = Some s ->
  user_id s = Some uid ->
  method rq = POST ->
  form rq !! "name" = Some v_name ->
  float_or_none (form rq !! "lat") = Done x ->
  float_or_none (form rq !! "lng") = Done y ->
  let t := spot_table (db w) in
  edit_spot id rq w
  = (Done (Redirect url_for_index),
     add_flash msg_spot_updated
       (set_spot_table
          (<[id := stored (form_spot rq v_name x y (Some uid))]> t) w)) /\
  add_spot rq w
  = (Done (Redirect url_for_index),
     add_flash msg_spot_added
       (set_spot_table
          (<[Sqlite.next_rowid t
             := stored (form_spot rq v_name x y (Some uid))]> t) w)) /\
  (forall v, x = Some v ->
     (90 <? v)%float = true \/ (v <? -90)%float = true ->
     lat (stored (form_spot rq v_name x y (Some uid))) = Some v) /\
  (forall v, y = Some v ->
     (180 <? v)%float = true \/ (v <? -180)%float = true ->
     lng (stored (form_spot rq v_name x y (Some uid))) = Some v) /\
  (form rq !! "lat" = Some "91" ->
   spot_table (db (edit_spot id rq w).2) !! id
   = Some {| name := v_name; city := form rq !! "city";
             comment := form rq !! "comment";
             lat := Some 91%float; lng := y ≫= Sqlite.real;
             user_id := Some uid |} /\
   (90 <? 91)%float = true).
Proof.
  intros Hu Hs Ho Hm Hn Hx Hy t.
  pose proof (edit_spot_updated _ _ _ _ _ _ _ _ Hu Hs Ho Hm Hn Hx Hy) as He.
  split; [done|]. split; [by apply add_spot_created|].
  split; [|split].
  - intros v -> Hv. simpl. apply (real_out_of_range 90); [by left|done].
  - intros v -> Hv. simpl. apply (real_out_of_range 180); [by right|done].
  - intros Hlat. rewrite He. simpl. rewrite lookup_insert_eq.
    rewrite Hlat in Hx. vm_compute in Hx. injection Hx as <-.
    split; reflexivity.
Qed.

Lemma coordinates_not_range_checked_witness :
  let rq := request POST [] [("name", "Tower"); ("lat", "91")] in
  spot_table (db (edit_spot 1 rq (as_user 1)).2) !! 1
  = Some {| name := "Tower"; city := None; comment := None;
            lat := Some 91%float; lng := None; user_id := Some 1 |}.
Proof.
  intros rq.
  pose proof (coordinates_not_range_checked 1 rq (as_user 1) 1 tower "Tower"
                (Some 91%float) None) as H.
  destruct H as (_ & _ & _ & _ & H).
  - vm_compute. reflexivity.
  - vm_compute. reflexivity.
  - reflexivity.
  - reflexivity.
  - reflexivity.
  - vm_compute. reflexivity.
  - vm_compute. reflexivity.
  - apply H. reflexivity.
Defined.

(** C8.  Round trip: after a create with name ["Temple"], city
    ["Kyoto"], lat ["35.0"] and lng ["135.8"], the row under the id the
    table assigned has exactly these values, the coordinates as the
    floats [35.0] and [135.8], and the edit form of that id shows this
    row to its owner. *)
Theorem create_then_get_roundtrip rq rq' w uid :
  current_user w = Some uid ->
  method rq = POST ->
  form rq !! "name" = Some "Temple" ->
  form rq !! "city" = Some "Kyoto" ->
  form rq !! "lat" = Some "35.0" ->
  form rq !! "lng" = Some "135.8" ->
  method rq' = GET ->
  let id := Sqlite.next_rowid (spot_table (db w)) in
  let temple :=
    {| name := "Temple"; city := Some "Kyoto";
       comment := form rq !! "comment";
       lat := Some 35.0%float; lng := Some 135.8%float;
       user_id := Some uid |} in
  exists w',
    add_spot rq w = (Done (Redirect url_for_index), w') /\
    spot_table (db w) !! id = None /\
    get_or_404 id w' = (Done temple, w') /\
    edit_spot id rq' w'
    = (Done (Render (add_edit_spot_html (Some (id, temple)))), w').
Proof.
  intros Hu Hm Hn Hc Hx Hy Hm' id temple.
  eexists. split.
  { apply add_spot_created with (x := Some 35.0%float) (y := Some 135.8%float);
      [done..| |].
    - rewrite Hx. vm_compute. reflexivity.
    - rewrite Hy. vm_compute. reflexivity. }
  assert (Hrow : <[id := stored (form_spot rq "Temple" (Some 35.0%float)
                                   (Some 135.8%float) (Some uid))]>
                   (spot_table (db w)) !! id = Some temple).
  { rewrite lookup_insert_eq. unfold stored, form_spot, temple. simpl.
    rewrite Hc. reflexivity. }
  split; [apply next_rowid_fresh|]. split.
  - by apply get_or_404_found.
  - by apply edit_spot_get with uid.
Qed.

Lemma create_then_get_roundtrip_witness :
  let rq := request POST []
              [("name", "Temple"); ("city", "Kyoto");
               ("lat", "35.0"); ("lng", "135.8")] in
  exists w',
    add_spot rq (as_user 1) = (Done (Redirect "/"), w') /\
    edit_spot 2 (request GET [] []) w'
    = (Done (Render (add_edit_spot_html
         (Some (2, {| name := "Temple"; city := Some "Kyoto"; comment := None;
                      lat := Some 35.0%float; lng := Some 135.8%float;
                      user_id := Some 1 |})))), w').
Proof.
  intros rq.
  destruct (create_then_get_roundtrip rq (request GET [] []) (as_user 1) 1)
    as (w' & Hadd & _ & _ & Hget).
  - vm_compute. reflexivity.
  - reflexivity.
  - reflexivity.
  - reflexivity.
  - reflexivity.
  - reflexivity.
  - reflexivity.
  - exists w'. split; [exact Hadd|exact Hget].
Defined.






(** When a password is checked and found wrong, the two failures are
    alike: a sign-in that fails because no user has the submitted name
    and one that fails because the password check of the user found
    answers [False] give the same page and the same notice, and leave
    the session and the database as they were. *)
Theorem login_failure_uniform `{PasswordHasher} rq1 rq2 w uid user :
  method rq1 = POST ->
  method rq2 = POST ->
  (forall i u, user_table (db w) !! i = Some u ->
     Some (username u) <> form rq1 !! "username") ->
  first_user (form rq2 !! "username") (user_table (db w)) = Some (uid, user) ->
  check_password_hash (password user) (form rq2 !! "password") = Some false ->
  login rq1 w = (Done (Render login_html), add_flash msg_login_failed w) /\
  login rq2 w = login rq1 w /\
  session_user_id (login rq2 w).2 = session_user_id w /\
  db (login rq2 w).2 = db w.
Proof.
  intros Hm1 Hm2 Hnone%first_user_None Hfound Hwrong.
  rewrite (login_unknown_user rq1 w Hm1 Hnone).
  rewrite (login_wrong_password rq2 w uid user Hm2 Hfound Hwrong).
  by repeat split.
Qed.

Lemma login_failure_uniform_witness :
  let rq1 := request POST [] [("username", "carol"); ("password", "pw1")] in
  let rq2 := request POST [] [("username", "alice"); ("password", "guess")] in
  @login plain_hasher rq1 anonymous
  = (Done (Render login_html), add_flash msg_login_failed anonymous) /\
  @login plain_hasher rq2 anonymous = @login plain_hasher rq1 anonymous /\
  session_user_id (@login plain_hasher rq2 anonymous).2 = None /\
  db (@login plain_hasher rq2 anonymous).2 = sample_db.
Proof.
  intros rq1 rq2.
  apply (@login_failure_uniform plain_hasher rq1 rq2 anonymous 1 alice).
  - reflexivity.
  - reflexivity.
  - apply first_user_None. vm_compute. reflexivity.
  - vm_compute. reflexivity.
  - vm_compute. reflexivity.
Defined.

(** C9, the failing input.  A sign-in whose form has no [password]
    field tells a known name from an unknown one: for the name of a
    user the password check is called on [None] and its exception
    escapes the view, for any other name the page comes back with the
    notice.  ([register] reads the same field with [form[...]], which
    answers 400 whatever the name.) *)
Theorem login_without_password_reveals_user :
  let known := request POST [] [("username", "alice")] in
  let unknown := request POST [] [("username", "carol")] in
  first_user (Some "alice") (user_table sample_db) = Some (1, alice) /\
  first_user (Some "carol") (user_table sample_db) = None /\
  @login plain_hasher known anonymous = (Raise HashError, anonymous) /\
  @login plain_hasher unknown anonymous
  = (Done (Render login_html), add_flash msg_login_failed anonymous).
Proof.
  intros known unknown.
  assert (Hk : first_user (Some "alice") (user_table sample_db)
               = Some (1, alice)) by (vm_compute; reflexivity).
  assert (Hu : first_user (Some "carol") (user_table sample_db) = None)
    by (vm_compute; reflexivity).
  split; [exact Hk|]. split; [exact Hu|]. split.
  - by apply (@login_check_raises plain_hasher known anonymous 1 alice).
  - by apply (@login_unknown_user plain_hasher unknown anonymous).
Qed.

(** * Further properties of the views *)

(** Splits a view into the cases of its tests. *)
Ltac view_cases :=
  unfold index, map_view, add_spot, edit_spot, delete_spot, logout, login,
    register, login_required, get_or_404, users, commit_users, logout_user;
  repeat first [progress run_view | case_match]; simpl in *; simplify_eq.

(** ** Callers that are not signed in *)

(** X1.  A caller without a session, or whose session names a user that
    no longer exists, gets from every protected view the redirect to
    the login page with the login notice queued; nothing is read from or
    written to the database. *)
Theorem anonymous_is_sent_to_login id rq w :
  current_user w = None ->
  let r := (Done LoginRedirect, add_flash msg_login_required w) in
  index rq w = r /\ map_view rq w = r /\ add_spot rq w = r /\
  edit_spot id rq w = r /\ delete_spot id rq w = r /\ logout rq w = r.
Proof.
  intros Hu r.
  unfold index, map_view, add_spot, edit_spot, delete_spot, logout,
    login_required.
  rewrite Hu. by repeat split.
Qed.

Lemma anonymous_is_sent_to_login_witness :
  let rq := request POST [] [("name", "Mine")] in
  current_user stale_session = None /\
  edit_spot 1 rq stale_session
  = (Done LoginRedirect, add_flash msg_login_required stale_session) /\
  delete_spot 1 rq anonymous
  = (Done LoginRedirect, add_flash msg_login_required anonymous).
Proof.
  intros rq.
  assert (Hs : current_user stale_session = None) by (vm_compute; reflexivity).
  assert (Ha : current_user anonymous = None) by reflexivity.
  split; [exact Hs|]. split.
  - apply (anonymous_is_sent_to_login 1 rq stale_session Hs).
  - apply (anonymous_is_sent_to_login 1 rq anonymous Ha).
Defined.

(** ** What a view leaves alone *)


(** The [spot] table after each writing view: as before, or changed in
    the one row the view is about, on behalf of its owner. *)
Lemma add_spot_table rq w :
  let t := spot_table (db w) in
  spot_table (db (add_spot rq w).2) = t \/
  exists uid row,
    current_user w = Some uid /\ user_id row = Some uid /\
    spot_table (db (add_spot rq w).2) = <[Sqlite.next_rowid t := row]> t.
Proof.
  view_cases; try by left. right.
  eexists _, _. split; [reflexivity|]. split; [|reflexivity]. reflexivity.
Qed.

Lemma edit_spot_table id rq w :
  let t := spot_table (db w) in
  spot_table (db (edit_spot id rq w).2) = t \/
  exists uid s row,
    current_user w = Some uid /\ t !! id = Some s /\
    user_id s = Some uid /\ user_id row = Some uid /\
    spot_table (db (edit_spot id rq w).2) = <[id := row]> t.
Proof.
  view_cases; try by left. right.
  match goal with
  | Hd : bool_decide _ = false |- _ =>
      apply bool_decide_eq_false in Hd; apply dec_stable in Hd
  end.
  eexists _, _, _. split; [reflexivity|]. split; [reflexivity|].
  split; [eassumption|]. split; [|reflexivity]. assumption.
Qed.

Lemma delete_spot_table id rq w :
  let t := spot_table (db w) in
  spot_table (db (delete_spot id rq w).2) = t \/
  exists uid s,
    current_user w = Some uid /\ t !! id = Some s /\
    user_id s = Some uid /\
    spot_table (db (delete_spot id rq w).2) = delete id t.
Proof.
  view_cases; try by left. right.
  match goal with
  | Hd : bool_decide _ = false |- _ =>
      apply bool_decide_eq_false in Hd; apply dec_stable in Hd
  end.
  eexists _, _. split; [reflexivity|]. split; [reflexivity|].
  split; [eassumption|reflexivity].
Qed.

Lemma lookup_insert_fresh_row (t : gmap Z Spot) row j s :
  t !! j = Some s -> <[Sqlite.next_rowid t := row]> t !! j = Some s.
Proof.
  intros Hj. rewrite lookup_insert_ne; [done|].
  intros <-. by rewrite next_rowid_fresh in Hj.
Qed.

(** X3.  The views on spots never touch the accounts or the session,
    so their caller stays signed in as the same user; and the listing
    and the map write nothing at all. *)
Theorem spot_views_keep_accounts_and_session id rq w :
  db (index rq w).2 = db w /\
  db (map_view rq w).2 = db w /\
  user_table (db (add_spot rq w).2) = user_table (db w) /\
  user_table (db (edit_spot id rq w).2) = user_table (db w) /\
  user_table (db (delete_spot id rq w).2) = user_table (db w) /\
  current_user (index rq w).2 = current_user w /\
  current_user (map_view rq w).2 = current_user w /\
  current_user (add_spot rq w).2 = current_user w /\
  current_user (edit_spot id rq w).2 = current_user w /\
  current_user (delete_spot id rq w).2 = current_user w.
Proof. repeat split; view_cases; done. Qed.

(** X4.  Whatever a signed-in user sends to create, update or delete,
    every spot owned by someone else stays in the table exactly as it
    was. *)
Theorem other_users_spots_untouched id rq w uid j s :
  current_user w = Some uid ->
  spot_table (db w) !! j = Some s ->
  user_id s <> Some uid ->
  spot_table (db (add_spot rq w).2) !! j = Some s /\
  spot_table (db (edit_spot id rq w).2) !! j = Some s /\
  spot_table (db (delete_spot id rq w).2) !! j = Some s.
Proof.
  intros Hu Hj Hne. split; [|split].
  - destruct (add_spot_table rq w) as [->|(u & row & _ & _ & ->)]; [done|].
    by apply lookup_insert_fresh_row.
  - destruct (edit_spot_table id rq w)
      as [->|(u & s0 & row & Hu' & Hid & Ho & _ & ->)]; [done|].
    rewrite lookup_insert_ne; [done|]. intros <-. congruence.
  - destruct (delete_spot_table id rq w)
      as [->|(u & s0 & Hu' & Hid & Ho & ->)]; [done|].
    rewrite lookup_delete_ne; [done|]. intros <-. congruence.
Qed.

Lemma other_users_spots_untouched_witness :
  let rq := request POST [] [("name", "Mine"); ("lat", "1")] in
  spot_table (db (add_spot rq (as_user 2)).2) !! 1 = Some tower /\
  spot_table (db (edit_spot 1 rq (as_user 2)).2) !! 1 = Some tower /\
  spot_table (db (delete_spot 1 rq (as_user 2)).2) !! 1 = Some tower.
Proof.
  intros rq. apply (other_users_spots_untouched 1 rq (as_user 2) 2 1 tower).
  - vm_compute. reflexivity.
  - vm_compute. reflexivity.
  - vm_compute. discriminate.
Defined.

(** X5.  Create never alters or removes a spot that is already there:
    the new row gets an id of its own, and the table grows by at most
    that one row. *)
Theorem add_spot_keeps_existing_rows rq w j s :
  spot_table (db w) !! j = Some s ->
  spot_table (db (add_spot rq w).2) !! j = Some s /\
  (size (spot_table (db (add_spot rq w).2)) = size (spot_table (db w)) \/
   size (spot_table (db (add_spot rq w).2)) = S (size (spot_table (db w)))).
Proof.
  intros Hj.
  destruct (add_spot_table rq w) as [->|(u & row & _ & _ & ->)].
  - split; [done|by left].
  - split; [by apply lookup_insert_fresh_row|]. right.
    apply map_size_insert_None, next_rowid_fresh.
Qed.

Lemma add_spot_keeps_existing_rows_witness :
  let rq := request POST [] [("name", "Tower")] in
  spot_table (db (add_spot rq (as_user 1)).2) !! 1 = Some tower /\
  (size (spot_table (db (add_spot rq (as_user 1)).2)) = 1%nat \/
   size (spot_table (db (add_spot rq (as_user 1)).2)) = 2%nat).
Proof.
  intros rq. apply (add_spot_keeps_existing_rows rq (as_user 1) 1 tower).
  vm_compute. reflexivity.
Defined.

(** X6.  Update and delete act on the row of the id in the URL only:
    every other row of the table is the same afterwards, whoever calls
    and whatever is submitted. *)
Theorem edit_delete_touch_one_row id rq w j :
  j <> id ->
  spot_table (db (edit_spot id rq w).2) !! j = spot_table (db w) !! j /\
  spot_table (db (delete_spot id rq w).2) !! j = spot_table (db w) !! j.
Proof.
  intros Hne. split.
  - destruct (edit_spot_table id rq w) as [->|(u & s0 & row & _ & _ & _ & _ & ->)];
      [done|]. by rewrite lookup_insert_ne.
  - destruct (delete_spot_table id rq w) as [->|(u & s0 & _ & _ & _ & ->)];
      [done|]. by rewrite lookup_delete_ne.
Qed.

Lemma edit_delete_touch_one_row_witness :
  let rq := request POST [] [("name", "Peak"); ("lat", "1")] in
  let w := (add_spot rq (as_user 1)).2 in
  spot_table (db (edit_spot 2 rq w).2) !! 1 = Some tower /\
  spot_table (db (delete_spot 2 rq w).2) !! 1 = Some tower.
Proof.
  intros rq w.
  destruct (edit_delete_touch_one_row 2 rq w 1) as [He Hd]; [lia|].
  rewrite He, Hd. split; vm_compute; reflexivity.
Defined.

(** X7.  The owner of a spot never changes: a row that is in the table
    before and after a create, an update or a delete has the same
    [user_id]. *)
Theorem owner_never_changes id rq w j s s' :
  spot_table (db w) !! j = Some s ->
  (spot_table (db (add_spot rq w).2) !! j = Some s' ->
   user_id s' = user_id s) /\
  (spot_table (db (edit_spot id rq w).2) !! j = Some s' ->
   user_id s' = user_id s) /\
  (spot_table (db (delete_spot id rq w).2) !! j = Some s' ->
   user_id s' = user_id s).
Proof.
  intros Hj. split; [|split].
  - destruct (add_spot_table rq w) as [->|(u & row & _ & _ & ->)].
    + congruence.
    + rewrite (lookup_insert_fresh_row _ _ _ _ Hj). congruence.
  - destruct (edit_spot_table id rq w)
      as [->|(u & s0 & row & _ & Hid & Ho & Hrow & ->)]; [congruence|].
    destruct (decide (j = id)) as [->|Hne].
    + rewrite lookup_insert_eq. intros [= <-]. congruence.
    + rewrite lookup_insert_ne by done. congruence.
  - destruct (delete_spot_table id rq w) as [->|(u & s0 & _ & _ & _ & ->)];
      [congruence|].
    destruct (decide (j = id)) as [->|Hne].
    + by rewrite lookup_delete_eq.
    + rewrite lookup_delete_ne by done. congruence.
Qed.

Lemma owner_never_changes_witness :
  let rq := request POST [] [("name", "Peak"); ("city", "Tainan")] in
  user_id <$> spot_table (db (edit_spot 1 rq (as_user 1)).2) !! 1
  = Some (Some 1).
Proof.
  intros rq.
  destruct (spot_table (db (edit_spot 1 rq (as_user 1)).2) !! 1) as [s'|] eqn:Hs.
  - destruct (owner_never_changes 1 rq (as_user 1) 1 tower s') as (_ & He & _).
    + vm_compute. reflexivity.
    + simpl. by rewrite (He Hs).
  - vm_compute in Hs. discriminate.
Defined.

(** ** Updating, again *)

(** X8.  Round trip of an update: after its owner has posted new values
    for a spot, the edit form of that spot shows the submitted name,
    city and comment and the two coordinates as the table keeps them;
    the owner is the same. *)
Theorem update_then_get_roundtrip id rq rq' w uid s v_name x y :
  current_user w = Some uid ->
  spot_table (db w) !! id = Some s ->
  user_id s = Some uid ->
  method rq = POST ->
  form rq !! "name" = Some v_name ->
  float_or_none (form rq !! "lat") = Done x ->
  float_or_none (form rq !! "lng") = Done y ->
  method rq' = GET ->
  exists w',
    edit_spot id rq w = (Done (Redirect url_for_index), w') /\
    edit_spot id rq' w'
    = (Done (Render (add_edit_spot_html
         (Some (id, {| name := v_name; city := form rq !! "city";
                       comment := form rq !! "comment";
                       lat := x ≫= Sqlite.real; lng := y ≫= Sqlite.real;
                       user_id := Some uid |})))), w').
Proof.
  intros Hu Hs Ho Hm Hn Hx Hy Hm'. eexists. split.
  - by apply edit_spot_updated with s.
  - apply edit_spot_get with uid; [done| |done|done].
    apply lookup_insert_eq.
Qed.

Lemma update_then_get_roundtrip_witness :
  let rq := request POST []
              [("name", "Peak"); ("city", "Tainan"); ("lat", "-0"); ("lng", "nan")] in
  exists w',
    edit_spot 1 rq (as_user 1) = (Done (Redirect "/"), w') /\
    edit_spot 1 (request GET [] []) w'
    = (Done (Render (add_edit_spot_html
         (Some (1, {| name := "Peak"; city := Some "Tainan"; comment := None;
                      lat := Some 0%float; lng := None;
                      user_id := Some 1 |})))), w').
Proof.
  intros rq.
  destruct (update_then_get_roundtrip 1 rq (request GET [] []) (as_user 1) 1
              tower "Peak" (Some (-0)%float) (Some nan))
    as (w' & Hpost & Hget).
  - vm_compute. reflexivity.
  - vm_compute. reflexivity.
  - reflexivity.
  - reflexivity.
  - reflexivity.
  - vm_compute. reflexivity.
  - vm_compute. reflexivity.
  - reflexivity.
  - exists w'. split; [exact Hpost|exact Hget].
Defined.

(** X9.  The order of the checks in an update.  An id that is not in
    the table ends the view before the form is read, whoever the
    signed-in caller is: with status 404 for an id of 64 bits, with the
    [OverflowError] of the driver for a larger one.  The owner's form
    without a [name] field gives status 400, whatever the coordinates
    are.  Nothing is written in any of these cases. *)
Theorem edit_spot_error_order id rq w uid :
  current_user w = Some uid ->
  (spot_table (db w) !! id = None ->
   Sqlite.is_int64 id = true ->
   edit_spot id rq w = (Abort 404, w)) /\
  (spot_table (db w) !! id = None ->
   Sqlite.is_int64 id = false ->
   edit_spot id rq w = (Raise OverflowError, w)) /\
  (forall s,
     spot_table (db w) !! id = Some s ->
     user_id s = Some uid ->
     method rq = POST ->
     form rq !! "name" = None ->
     edit_spot id rq w = (Abort 400, w)).
Proof.
  intros Hu. split; [|split].
  - intros Hs Hid. by apply edit_spot_missing with uid.
  - intros Hs Hid. by apply edit_spot_overflow with uid.
  - intros s Hs Ho Hm Hn. unfold edit_spot.
    rewrite (login_required_authenticated _ _ _ Hu). run_view.
    rewrite (get_or_404_found _ _ _ Hs).
    rewrite bool_decide_eq_false_2 by (intros Hne; by apply Hne).
    by rewrite Hm, Hn.
Qed.

Lemma edit_spot_error_order_witness :
  let rq := request POST [] [("lat", "north")] in
  edit_spot 7 rq (as_user 1) = (Abort 404, as_user 1) /\
  edit_spot 9223372036854775808 rq (as_user 1)
  = (Raise OverflowError, as_user 1) /\
  edit_spot 1 rq (as_user 1) = (Abort 400, as_user 1).
Proof.
  intros rq.
  assert (Hu : current_user (as_user 1) = Some 1) by (vm_compute; reflexivity).
  destruct (edit_spot_error_order 7 rq (as_user 1) 1 Hu) as (H404 & _ & _).
  destruct (edit_spot_error_order 9223372036854775808 rq (as_user 1) 1 Hu)
    as (_ & Hover & _).
  destruct (edit_spot_error_order 1 rq (as_user 1) 1 Hu) as (_ & _ & H400).
  split; [|split].
  - apply H404; vm_compute; reflexivity.
  - apply Hover; vm_compute; reflexivity.
  - apply (H400 tower); vm_compute; reflexivity.
Defined.

(** X10.  An update is idempotent on the database: posting the same
    form a second time succeeds again and leaves the tables as the
    first post made them. *)
Theorem edit_spot_idempotent id rq w uid s v_name x y :
  current_user w = Some uid ->
  spot_table (db w) !! id = Some s ->
  user_id s = Some uid ->
  method rq = POST ->
  form rq !! "name" = Some v_name ->
  float_or_none (form rq !! "lat") = Done x ->
  float_or_none (form rq !! "lng") = Done y ->
  let w1 := (edit_spot id rq w).2 in
  (edit_spot id rq w1).1 = Done (Redirect url_for_index) /\
  db (edit_spot id rq w1).2 = db w1.
Proof.
  intros Hu Hs Ho Hm Hn Hx Hy w1. unfold w1.
  rewrite (edit_spot_updated _ _ _ _ _ _ _ _ Hu Hs Ho Hm Hn Hx Hy). simpl.
  erewrite edit_spot_updated; [|exact Hu|apply lookup_insert_eq|done..].
  simpl. split; [done|]. unfold set_spot_table. simpl.
  by rewrite insert_insert_eq.
Qed.

Lemma edit_spot_idempotent_witness :
  let rq := request POST [] [("name", "Peak"); ("lat", "25.03")] in
  let w1 := (edit_spot 1 rq (as_user 1)).2 in
  (edit_spot 1 rq w1).1 = Done (Redirect "/") /\
  db (edit_spot 1 rq w1).2 = db w1.
Proof.
  intros rq.
  apply (edit_spot_idempotent 1 rq (as_user 1) 1 tower "Peak"
           (Some 25.03%float) None).
  - vm_compute. reflexivity.
  - vm_compute. reflexivity.
  - reflexivity.
  - reflexivity.
  - reflexivity.
  - vm_compute. reflexivity.
  - vm_compute. reflexivity.
Defined.

(** X11.  A create is not idempotent: posting the same form twice
    leaves two rows with the same content under two different ids,
    neither of which was in use. *)
Theorem add_spot_twice_two_rows rq w uid v_name x y :
  current_user w = Some uid ->
  method rq = POST ->
  form rq !! "name" = Some v_name ->
  float_or_none (form rq !! "lat") = Done x ->
  float_or_none (form rq !! "lng") = Done y ->
  let w2 := (add_spot rq (add_spot rq w).2).2 in
  exists i1 i2 row,
    i1 <> i2 /\
    spot_table (db w) !! i1 = None /\
    spot_table (db w) !! i2 = None /\
    spot_table (db w2) !! i1 = Some row /\
    spot_table (db w2) !! i2 = Some row /\
    name row = v_name /\ user_id row = Some uid.
Proof.
  intros Hu Hm Hn Hx Hy w2. unfold w2.
  rewrite (add_spot_created _ _ _ _ _ _ Hu Hm Hn Hx Hy). simpl.
  erewrite add_spot_created; [|exact Hu|done..]. simpl.
  set (t := spot_table (db w)).
  set (row := stored (form_spot rq v_name x y (Some uid))).
  set (i1 := Sqlite.next_rowid t).
  set (i2 := Sqlite.next_rowid (<[i1 := row]> t)).
  assert (H1 : t !! i1 = None) by apply next_rowid_fresh.
  assert (H2 : <[i1 := row]> t !! i2 = None) by apply next_rowid_fresh.
  assert (Hne : i1 <> i2).
  { intros Heq. rewrite <- Heq, lookup_insert_eq in H2. done. }
  exists i1, i2, row. split; [done|]. split; [done|].
  rewrite lookup_insert_ne in H2 by done.
  split; [done|]. split; [|split; [apply lookup_insert_eq|done]].
  rewrite lookup_insert_ne by done. apply lookup_insert_eq.
Qed.

Lemma add_spot_twice_two_rows_witness :
  let rq := request POST [] [("name", "Peak")] in
  let w2 := (add_spot rq (add_spot rq (as_user 1)).2).2 in
  exists i1 i2 row,
    i1 <> i2 /\
    spot_table (db (as_user 1)) !! i1 = None /\
    spot_table (db (as_user 1)) !! i2 = None /\
    spot_table (db w2) !! i1 = Some row /\
    spot_table (db w2) !! i2 = Some row /\
    name row = "Peak" /\ user_id row = Some 1.
Proof.
  intros rq.
  apply (add_spot_twice_two_rows rq (as_user 1) 1 "Peak" None None).
  - vm_compute. reflexivity.
  - reflexivity.
  - reflexivity.
  - vm_compute. reflexivity.
  - vm_compute. reflexivity.
Defined.

(** ** The city filter, again *)

Lemma prefix_app f c :
  String.prefix f c = true -> exists suf, c = f +:+ suf.
Proof.
  revert c. induction f as [|a f IH]; intros c; simpl.
  - intros _. by exists c.
  - destruct c as [|b c]; simpl; [done|].
    destruct (ascii_dec a b) as [->|]; [|done].
    intros [suf ->]%IH. by exists suf.
Qed.

Lemma case_sensitive_substring_app f c :
  case_sensitive_substring f c = true ->
  exists pre suf, c = pre +:+ f +:+ suf.
Proof.
  induction c as [|b c IH]; cbn [case_sensitive_substring];
    rewrite orb_true_iff.
  - intros [[suf Hc]%prefix_app|]; [|done]. by exists "", suf.
  - intros [[suf Hc]%prefix_app|(pre & suf & ->)%IH].
    + by exists "", suf.
    + by exists (String b pre), suf.
Qed.

Lemma char_eq_nocase_refl c : Sqlite.char_eq_nocase c c = true.
Proof. unfold Sqlite.char_eq_nocase. apply Ascii.eqb_refl. Qed.

(** A pattern matches its own text, wildcards included. *)
Lemma like_verbatim f p rest :
  Sqlite.pattern_compare p rest = true ->
  Sqlite.pattern_compare (f ++ p) (f ++ rest) = true.
Proof.
  intros Hp. induction f as [|c f IH]; [done|].
  rewrite <- !app_comm_cons.
  destruct (Ascii.eqb c "%") eqn:Hc1.
  - apply Ascii.eqb_eq in Hc1 as ->. apply like_percent.
    by exists ["%"%char], (f ++ rest).
  - destruct (Ascii.eqb c "_") eqn:Hc2.
    + apply Ascii.eqb_eq in Hc2 as ->. exact IH.
    + rewrite like_literal_unfold by (unfold wildcard; by rewrite Hc1, Hc2).
      by rewrite char_eq_nocase_refl.
Qed.

Lemma contains_verbatim c pre f suf :
  nul_free f = true ->
  until_nul c = pre +:+ f +:+ suf ->
  contains (Some c) f = true.
Proof.
  intros Hf Hc. rewrite (contains_pattern _ _ Hf), Hc.
  rewrite !list_ascii_of_string_app. apply like_percent.
  exists (list_ascii_of_string pre),
         (list_ascii_of_string f ++ list_ascii_of_string suf).
  split; [done|]. apply like_verbatim, like_percent_end.
Qed.

(** X12.  The city filter never loses an exact match.  For a filter
    without NUL whose pattern is within the limit of SQLite, a spot of
    the caller whose city, read up to its first NUL, contains the
    filter text as it stands, letter case included, is in the filtered
    listing, also when the filter has percent signs or underscores. *)
Theorem exact_city_match_is_listed rq w uid f i s c :
  current_user w = Some uid ->
  args rq !! "city" = Some f ->
  f <> "" ->
  nul_free f = true ->
  pattern_fits f ->
  spot_table (db w) !! i = Some s ->
  user_id s = Some uid ->
  city s = Some c ->
  case_sensitive_substring f (until_nul c) = true ->
  exists l,
    index rq w = (Done (Render (index_html l (Some f))), w) /\
    (i, s) ∈ l.
Proof.
  intros Hu Hc Hf Hn _ Hi Ho Hcity (pre & suf & Hsub)%case_sensitive_substring_app.
  eexists. split; [by apply index_filtered|].
  apply elem_of_all. split; [done|].
  rewrite andb_true_iff, owned_by_true, Hcity. split; [done|].
  by apply contains_verbatim with pre suf.
Qed.

Lemma exact_city_match_is_listed_witness :
  exists l,
    index (request GET [("city", "aip")] []) (as_user 1)
    = (Done (Render (index_html l (Some "aip"))), as_user 1) /\
    (1, tower) ∈ l.
Proof.
  apply (exact_city_match_is_listed (request GET [("city", "aip")] [])
           (as_user 1) 1 "aip" 1 tower "Taipei").
  - vm_compute. reflexivity.
  - reflexivity.
  - discriminate.
  - reflexivity.
  - vm_compute. discriminate.
  - vm_compute. reflexivity.
  - reflexivity.
  - reflexivity.
  - vm_compute. reflexivity.
Defined.

(** ** Deleting, then listing *)




(** ** Signing in and out *)

Lemma first_user_found uname (t : gmap Z User) i u :
  t !! i = Some u -> Some (username u) = uname ->
  exists r, first_user uname t = Some r.
Proof.
  intros Hi Hu. destruct (first_user uname t) as [r|] eqn:Hf; [by exists r|].
  exfalso. by apply (proj1 (first_user_None uname t) Hf i u).
Qed.

(** X14.  A sign-in whose user is found and whose password check
    answers [True] binds the session to that user and changes nothing
    else; the answer is a redirect to the [next] argument of the query
    when there is a non-empty one, taken as it is, and to the listing
    otherwise.  The protected views then see that user. *)
Theorem login_success `{PasswordHasher} rq w uid user :
  method rq = POST ->
  first_user (form rq !! "username") (user_table (db w)) = Some (uid, user) ->
  check_password (user) (form rq !! "password") = Some true ->
  login rq w
  = (Done (Redirect (default url_for_index (nonempty (args rq !! "next")))),
     set_session uid w) /\
  current_user (set_session uid w) = Some uid /\
  (args rq !! "next" = None \/ args rq !! "next" = Some "" ->
   (login rq w).1 = Done (Redirect "/")) /\
  (forall url, url <> "" -> args rq !! "next" = Some url ->
   (login rq w).1 = Done (Redirect url)).
Proof.
  intros Hm Hf Hp. unfold check_password in Hp.
  assert (Hrun : login rq w
            = (Done (Redirect (default url_for_index
                                 (nonempty (args rq !! "next")))),
               set_session uid w)).
  { unfold login. by rewrite Hm, Hf, Hp. }
  split; [exact Hrun|]. split.
  - apply first_user_Some in Hf as [Hrow _].
    unfold current_user. simpl. by rewrite Hrow.
  - rewrite Hrun. simpl. split.
    + intros Hb. by rewrite (nonempty_blank _ Hb).
    + intros url Hurl ->. by rewrite (nonempty_Some _ Hurl).
Qed.

Lemma login_success_witness :
  let rq := request POST [("next", "/map")]
              [("username", "alice"); ("password", "pw1")] in
  @login plain_hasher rq anonymous = (Done (Redirect "/map"), as_user 1) /\
  current_user (as_user 1) = Some 1.
Proof.
  intros rq.
  destruct (@login_success plain_hasher rq anonymous 1 alice)
    as (Hrun & Hu & _).
  - reflexivity.
  - vm_compute. reflexivity.
  - vm_compute. reflexivity.
  - split; [exact Hrun|exact Hu].
Defined.

(** X15.  [login] never writes the database, and it leaves the session
    as it was unless the request is a POST, a row of the [user] table
    has the submitted name, and the password check on that row's hash
    answered [True]; the session is then bound to that row's id. *)
Theorem login_binds_session_only_after_check `{PasswordHasher} rq w :
  db (login rq w).2 = db w /\
  (session_user_id (login rq w).2 = session_user_id w \/
   exists uid user,
     method rq = POST /\
     user_table (db w) !! uid = Some user /\
     Some (username user) = form rq !! "username" /\
     check_password user (form rq !! "password") = Some true /\
     session_user_id (login rq w).2 = Some uid).
Proof.
  unfold login, check_password. destruct (method rq); [by split; [|left]|].
  destruct (first_user _ _) as [[uid user]|] eqn:Hf; [|by split; [|left]].
  destruct (check_password_hash _ _) as [[]|] eqn:Hp;
    [|by split; [|left]..].
  split; [done|]. right. exists uid, user.
  apply first_user_Some in Hf as [Hrow Hname]. by repeat split.
Qed.

(** X16.  Signing out unbinds the session and changes nothing else;
    afterwards the caller is anonymous, so the protected views, a
    second sign-out included, send to the login page. *)
Theorem logout_clears_session rq rq' id w uid :
  current_user w = Some uid ->
  let w1 := clear_session w in
  let r := (Done LoginRedirect, add_flash msg_login_required w1) in
  logout rq w = (Done (Redirect url_for_login), w1) /\
  db w1 = db w /\ flashes w1 = flashes w /\
  current_user w1 = None /\
  logout rq' w1 = r /\ index rq' w1 = r /\ map_view rq' w1 = r /\
  add_spot rq' w1 = r /\ edit_spot id rq' w1 = r /\ delete_spot id rq' w1 = r.
Proof.
  intros Hu w1 r. split.
  - unfold logout. by rewrite (login_required_authenticated _ _ _ Hu).
  - by repeat split.
Qed.

Lemma logout_clears_session_witness :
  logout (request GET [] []) (as_user 1)
  = (Done (Redirect "/login"), anonymous) /\
  delete_spot 1 (request GET [] []) anonymous
  = (Done LoginRedirect, add_flash msg_login_required anonymous).
Proof.
  destruct (logout_clears_session (request GET [] []) (request GET [] []) 1
              (as_user 1) 1) as (Hout & _ & _ & _ & _ & _ & _ & _ & _ & Hd).
  - vm_compute. reflexivity.
  - split; [exact Hout|exact Hd].
Defined.

(** ** Registering *)

Section Register.
Context `{PasswordMaker}.

Lemma register_taken salt rq w v_username v_password r :
  method rq = POST ->
  form rq !! "username" = Some v_username ->
  form rq !! "password" = Some v_password ->
  first_user (Some v_username) (user_table (db w)) = Some r ->
  register salt rq w
  = (Done (register_redirect url_for_register),
     add_flash msg_username_taken w).
Proof.
  intros Hm Hn Hp Hf. unfold register. rewrite Hm. run_view.
  rewrite Hn, Hp. unfold users. simpl. by rewrite Hf.
Qed.

Lemma register_created salt rq w v_username v_password :
  method rq = POST ->
  form rq !! "username" = Some v_username ->
  form rq !! "password" = Some v_password ->
  first_user (Some v_username) (user_table (db w)) = None ->
  register salt rq w
  = (Done (register_redirect url_for_login),
     add_flash msg_registered
       (set_user_table
          (<[Sqlite.next_rowid (user_table (db w))
             := {| username := v_username;
                   password := generate_password_hash salt v_password |}]>
             (user_table (db w))) w)).
Proof.
  intros Hm Hn Hp Hf. unfold register. rewrite Hm. run_view.
  rewrite Hn, Hp. unfold users. simpl. by rewrite Hf.
Qed.

(** The [user] table after [register]: as before, or with one new row
    under an unused id, whose name no row had. *)
Lemma register_table salt rq w :
  let t := user_table (db w) in
  user_table (db (register salt rq w).2) = t \/
  exists u,
    (forall i v, t !! i = Some v -> username v <> username u) /\
    user_table (db (register salt rq w).2) = <[Sqlite.next_rowid t := u]> t.
Proof.
  intros t. unfold register.
  destruct (method rq); [by left|]. run_view.
  destruct (form rq !! "username") as [v_username|]; [|by left].
  destruct (form rq !! "password") as [v_password|]; [|by left].
  unfold users. simpl.
  destruct (first_user _ _) as [r|] eqn:Hf; [by left|]. right.
  eexists. split; [|reflexivity]. simpl.
  intros i v Hi Hv.
  apply (proj1 (first_user_None _ _) Hf i v Hi). by rewrite Hv.
Qed.

End Register.

Lemma first_user_new_row (t : gmap Z User) k u :
  t !! k = None ->
  (forall i v, t !! i = Some v -> username v <> username u) ->
  first_user (Some (username u)) (<[k := u]> t) = Some (k, u).
Proof.
  intros Hk Hfresh.
  destruct (first_user_found (Some (username u)) (<[k := u]> t) k u)
    as [[i v] Hf]; [apply lookup_insert_eq|done|].
  rewrite Hf. apply first_user_Some in Hf as [Hi Hv].
  destruct (decide (i = k)) as [->|Hne].
  - rewrite lookup_insert_eq in Hi. congruence.
  - rewrite lookup_insert_ne in Hi by done.
    exfalso. apply (Hfresh i v Hi). congruence.
Qed.

(** X17.  [register] takes both fields from the form before anything
    else: without a [username] or without a [password] field the
    request ends with status 400 and no account is made, also when the
    name is already taken. *)
Theorem register_requires_both_fields `{PasswordMaker} salt rq w :
  method rq = POST ->
  form rq !! "username" = None \/ form rq !! "password" = None ->
  register salt rq w = (Abort 400, w).
Proof.
  intros Hm Hmiss. unfold register. rewrite Hm. run_view.
  destruct (form rq !! "username") as [v_username|]; [|done].
  destruct Hmiss as [[=]|Hp]. by rewrite Hp.
Qed.

Lemma register_requires_both_fields_witness :
  @register plain_maker "s" (request POST [] [("username", "alice")]) anonymous
  = (Abort 400, anonymous).
Proof.
  apply (@register_requires_both_fields plain_maker).
  - reflexivity.
  - right. vm_compute. reflexivity.
Defined.

(** X18.  A name that a row of the [user] table already carries cannot
    be registered again: the request is answered with the redirect back
    to the registration page and the notice, and the table is as it
    was. *)
Theorem register_refuses_taken_name `{PasswordMaker} salt rq w
    v_username v_password i u :
  method rq = POST ->
  form rq !! "username" = Some v_username ->
  form rq !! "password" = Some v_password ->
  user_table (db w) !! i = Some u ->
  username u = v_username ->
  register salt rq w
  = (Done (register_redirect url_for_register),
     add_flash msg_username_taken w).
Proof.
  intros Hm Hn Hp Hi Hu.
  destruct (first_user_found (Some v_username) (user_table (db w)) i u)
    as [r Hf]; [done|by rewrite Hu|].
  by apply register_taken with v_username v_password r.
Qed.

Lemma register_refuses_taken_name_witness :
  @register plain_maker "s"
    (request POST [] [("username", "alice"); ("password", "other")]) anonymous
  = (Done (register_redirect "/register"),
     add_flash msg_username_taken anonymous).
Proof.
  apply (@register_refuses_taken_name plain_maker "s" _ anonymous
           "alice" "other" 1 alice).
  - reflexivity.
  - vm_compute. reflexivity.
  - vm_compute. reflexivity.
  - vm_compute. reflexivity.
  - reflexivity.
Defined.

(** X19.  Registering a name that no row carries adds one row, under an
    id that was not in use, with that name and, as password, what the
    hashing made of the submitted one.  Every other account, the spots
    and the session are untouched: the new user is not signed in. *)
Theorem register_adds_account `{PasswordMaker} salt rq w
    v_username v_password :
  method rq = POST ->
  form rq !! "username" = Some v_username ->
  form rq !! "password" = Some v_password ->
  (forall i u, user_table (db w) !! i = Some u -> username u <> v_username) ->
  let uid := Sqlite.next_rowid (user_table (db w)) in
  let w1 := (register salt rq w).2 in
  (register salt rq w).1 = Done (register_redirect url_for_login) /\
  user_table (db w) !! uid = None /\
  user_table (db w1) !! uid
  = Some {| username := v_username;
            password := generate_password_hash salt v_password |} /\
  (forall j, j <> uid -> user_table (db w1) !! j = user_table (db w) !! j) /\
  spot_table (db w1) = spot_table (db w) /\
  session_user_id w1 = session_user_id w /\
  flashes w1 = flashes w ++ [msg_registered].
Proof.
  intros Hm Hn Hp Hfresh uid w1. unfold w1.
  rewrite (register_created salt rq w v_username v_password Hm Hn Hp).
  - simpl. split; [done|]. split; [apply next_rowid_fresh|].
    split; [apply lookup_insert_eq|]. split; [|done].
    intros j Hj. by rewrite lookup_insert_ne.
  - apply first_user_None. intros i u Hi [= Hu]. by apply (Hfresh i u).
Qed.

Lemma register_adds_account_witness :
  let rq := request POST [] [("username", "carol"); ("password", "pw3")] in
  let w1 := (@register plain_maker "s" rq (as_user 1)).2 in
  user_table (db w1) !! 3 = Some {| username := "carol"; password := "pw3" |} /\
  session_user_id w1 = Some 1.
Proof.
  intros rq.
  destruct (@register_adds_account plain_maker "s" rq (as_user 1)
              "carol" "pw3") as (_ & _ & Hrow & _ & _ & Hs & _).
  - reflexivity.
  - vm_compute. reflexivity.
  - vm_compute. reflexivity.
  - intros i u Hi Hu.
    assert (Hf : first_user (Some "carol") (user_table (db (as_user 1))) = None)
      by (vm_compute; reflexivity).
    apply (proj1 (first_user_None _ _) Hf i u Hi). by rewrite Hu.
  - split; [exact Hrow|exact Hs].
Defined.

(** X20.  [register] keeps user names unique: if no two rows of the
    [user] table share a name before a request, none do after it,
    whatever the request. *)
Theorem register_keeps_usernames_unique `{PasswordMaker} salt rq w :
  unique_usernames (user_table (db w)) ->
  unique_usernames (user_table (db (register salt rq w).2)).
Proof.
  intros Huniq.
  destruct (register_table salt rq w) as [->|(u & Hfresh & ->)]; [done|].
  set (k := Sqlite.next_rowid (user_table (db w))).
  intros i j a b Hi Hj Hab.
  destruct (decide (i = k)) as [->|Hik], (decide (j = k)) as [->|Hjk].
  - done.
  - rewrite lookup_insert_eq in Hi. rewrite lookup_insert_ne in Hj by done.
    injection Hi as <-. exfalso. by apply (Hfresh j b).
  - rewrite lookup_insert_ne in Hi by done. rewrite lookup_insert_eq in Hj.
    injection Hj as <-. exfalso. by apply (Hfresh i a).
  - rewrite lookup_insert_ne in Hi, Hj by done. by apply (Huniq i j a b).
Qed.

Lemma sample_usernames_unique : unique_usernames (user_table sample_db).
Proof.
  intros i j u v Hi Hj Huv. simpl in Hi, Hj.
  apply lookup_insert_Some in Hi as [[<- <-]|[_ Hi]];
    apply lookup_insert_Some in Hj as [[<- <-]|[_ Hj]];
    try apply lookup_singleton_Some in Hi as [<- <-];
    try apply lookup_singleton_Some in Hj as [<- <-];
    done.
Qed.

Lemma register_keeps_usernames_unique_witness :
  let rq := request POST [] [("username", "carol"); ("password", "pw3")] in
  unique_usernames
    (user_table (db (@register plain_maker "s" rq anonymous).2)).
Proof.
  intros rq.
  apply (@register_keeps_usernames_unique plain_maker "s" rq anonymous).
  exact sample_usernames_unique.
Defined.

(** X21.  Registering and then signing in: when the check accepts the
    hash that the hashing made of a password, a user who registers a
    free name can sign in at once with the same name and password, and
    the session is bound to the id of the new row. *)
Theorem register_then_login `{PasswordHasher} `{PasswordMaker}
    salt rq rq' w v_username v_password :
  check_password_hash (generate_password_hash salt v_password)
                      (Some v_password) = Some true ->
  method rq = POST ->
  form rq !! "username" = Some v_username ->
  form rq !! "password" = Some v_password ->
  (forall i u, user_table (db w) !! i = Some u -> username u <> v_username) ->
  method rq' = POST ->
  form rq' !! "username" = Some v_username ->
  form rq' !! "password" = Some v_password ->
  let uid := Sqlite.next_rowid (user_table (db w)) in
  exists w1,
    register salt rq w = (Done (register_redirect url_for_login), w1) /\
    session_user_id w1 = session_user_id w /\
    login rq' w1
    = (Done (Redirect (default url_for_index (nonempty (args rq' !! "next")))),
       set_session uid w1) /\
    current_user (set_session uid w1) = Some uid.
Proof.
  intros Hlaw Hm Hn Hp Hfresh Hm' Hn' Hp' uid.
  set (u := {| username := v_username;
               password := generate_password_hash salt v_password |}).
  set (t := user_table (db w)).
  set (w1 := add_flash msg_registered (set_user_table (<[uid := u]> t) w)).
  assert (Hk : t !! uid = None) by apply next_rowid_fresh.
  assert (Hfound : first_user (Some v_username) (user_table (db w1))
                   = Some (uid, u)).
  { apply (first_user_new_row t uid u Hk). exact Hfresh. }
  exists w1. split; [|split; [|split]].
  - apply register_created; [done..|].
    apply first_user_None. intros i v Hi [= Hv]. by apply (Hfresh i v).
  - done.
  - unfold login. rewrite Hm', Hn', Hp', Hfound. simpl. by rewrite Hlaw.
  - unfold current_user. simpl. by rewrite lookup_insert_eq.
Qed.

Lemma register_then_login_witness :
  let rq := request POST [] [("username", "carol"); ("password", "pw3")] in
  exists w1,
    @register plain_maker "s" rq anonymous
    = (Done (register_redirect "/login"), w1) /\
    @login plain_hasher rq w1 = (Done (Redirect "/"), set_session 3 w1).
Proof.
  intros rq.
  destruct (@register_then_login plain_hasher plain_maker "s" rq rq anonymous
              "carol" "pw3") as (w1 & Hreg & _ & Hlog & _).
  - vm_compute. reflexivity.
  - reflexivity.
  - vm_compute. reflexivity.
  - vm_compute. reflexivity.
  - intros i u Hi Hu.
    assert (Hf : first_user (Some "carol") (user_table (db anonymous)) = None)
      by (vm_compute; reflexivity).
    apply (proj1 (first_user_None _ _) Hf i u Hi). by rewrite Hu.
  - reflexivity.
  - vm_compute. reflexivity.
  - vm_compute. reflexivity.
  - exists w1. split; [exact Hreg|exact Hlog].
Defined.

(** X22.  The same name cannot be registered twice: after a name has
    been registered, a second registration of it, with whatever
    password, is answered with the notice that the name is taken and
    adds no account. *)
Theorem register_twice_refused `{PasswordMaker}
    salt salt' rq rq' w v_username v_password v_password' :
  method rq = POST ->
  form rq !! "username" = Some v_username ->
  form rq !! "password" = Some v_password ->
  (forall i u, user_table (db w) !! i = Some u -> username u <> v_username) ->
  method rq' = POST ->
  form rq' !! "username" = Some v_username ->
  form rq' !! "password" = Some v_password' ->
  let w1 := (register salt rq w).2 in
  (register salt rq w).1 = Done (register_redirect url_for_login) /\
  register salt' rq' w1
  = (Done (register_redirect url_for_register),
     add_flash msg_username_taken w1).
Proof.
  intros Hm Hn Hp Hfresh Hm' Hn' Hp' w1. unfold w1.
  rewrite (register_created salt rq w v_username v_password Hm Hn Hp).
  - simpl. split; [done|].
    eapply register_taken; [done..|].
    apply (first_user_new_row _ _
             {| username := v_username;
                password := generate_password_hash salt v_password |});
      [apply next_rowid_fresh|exact Hfresh].
  - apply first_user_None. intros i u Hi [= Hu]. by apply (Hfresh i u).
Qed.

Lemma register_twice_refused_witness :
  let rq := request POST [] [("username", "carol"); ("password", "pw3")] in
  let rq' := request POST [] [("username", "carol"); ("password", "pw4")] in
  let w1 := (@register plain_maker "s" rq anonymous).2 in
  @register plain_maker "t" rq' w1
  = (Done (register_redirect "/register"), add_flash msg_username_taken w1).
Proof.
  intros rq rq'.
  destruct (@register_twice_refused plain_maker "s" "t" rq rq' anonymous
              "carol" "pw3" "pw4") as [_ Htwice].
  - reflexivity.
  - vm_compute. reflexivity.
  - vm_compute. reflexivity.
  - intros i u Hi Hu.
    assert (Hf : first_user (Some "carol") (user_table (db anonymous)) = None)
      by (vm_compute; reflexivity).
    apply (proj1 (first_user_None _ _) Hf i u Hi). by rewrite Hu.
  - reflexivity.
  - vm_compute. reflexivity.
  - vm_compute. reflexivity.
  - exact Htwice.
Defined.
